(** * RAG Juridico: a shallow embedding of [rag_engine.py] and [main.py]

    The development follows the two Python modules of the service:

    - [rag_engine.py]: the class [RAGEngine] (build-or-load of the Chroma
      index, wiring of the retrieval chain, [query], [rebuild_vectorstore])
      and the lazily initialised module global [_rag_instance];
    - [main.py]: the pydantic request model [QueryRequest] and the FastAPI
      handlers [health_check], [query_constitution], [rebuild_vectorstore].

    Python code runs in a state-and-exception monad over the process state
    (file system, object heap, the module global, and the trace of calls
    that leave the program).  The third-party libraries (LangChain, Chroma,
    the Google clients) are not part of the repository: they are a record of
    oracles, so every theorem holds for all behaviours of those libraries.
    [print] calls write to stdout only and are left out. *)

From Stdlib Require Import ZArith NArith Ascii String.
From stdpp Require Import base option list gmap strings.

Open Scope Z_scope.

(** ** Python values *)

(** A Python [str] is a sequence of Unicode code points; [len] and slicing
    count code points. *)
Definition pystr := list N.

(** ASCII literals of the source. *)
Definition lit (s : string) : pystr := map N_of_ascii (list_ascii_of_string s).

(** [s[:n]] for [0 <= n]. *)
Definition slice_to (n : nat) (s : pystr) : pystr := take n s.

(** [len(s)]. *)
Definition len (s : pystr) : Z := Z.of_nat (length s).

(** The values stored in a dict typed [Any] (document metadata, a source's
    fields). *)
Inductive PyVal :=
| PyNone
| PyBool (b : bool)
| PyInt (z : Z)
| PyStr (s : pystr).

(** [Document] of LangChain: [page_content] and the [metadata] dict. *)
Record Document := mkDocument {
  page_content : pystr;
  metadata : gmap string PyVal
}.

(** [dict.get(key, default)]. *)
Definition dict_get (d : gmap string PyVal) (k : string) (dflt : PyVal) : PyVal :=
  default dflt (d !! k).

(** ** Exceptions *)

Inductive Exn :=
| FileNotFoundError (msg : pystr)
| FileExistsError (msg : pystr)
| AttributeError (msg : pystr)
| KeyError (key_repr : pystr)
| ValidationError (msg : pystr)   (* pydantic *)
| LibraryError (msg : pystr)      (* any [Exception] raised inside a library *)
| HTTPException (status_code : Z) (detail : pystr).

(** [str(e)].  Each exception carries the text [str] gives for it; for a
    [KeyError] that text is the [repr] of the key, so the exception holds
    the [repr] ([KeyError("answer")] holds ['answer'], quotes included). *)
Definition str_exn (e : Exn) : pystr :=
  match e with
  | FileNotFoundError m | FileExistsError m | AttributeError m
  | ValidationError m | LibraryError m => m
  | KeyError r => r
  | HTTPException c d => d
  end.

Inductive Result (A : Type) :=
| Ok (a : A)
| Raise (e : Exn).
Arguments Ok {A} a.
Arguments Raise {A} e.

Definition is_ok {A} (r : Result A) : bool :=
  match r with Ok _ => true | Raise _ => false end.

(** ** The world outside the program *)

(** The three paths the program tests or changes ([config.py]):
    [CATALOG] is [VECTORSTORE_DIR / "chroma.sqlite3"]. *)
Inductive Path := CATALOG | PDF_PATH | VECTORSTORE_DIR.

Record FileSystem := mkFileSystem {
  pdf_file : bool;                         (* [PDF_PATH] is present *)
  vectorstore_dir : option (list string)   (* entries of [VECTORSTORE_DIR]; [None]: no such directory *)
}.

(** [Path.exists()]. *)
Definition path_exists (fs : FileSystem) (p : Path) : bool :=
  match p with
  | PDF_PATH => pdf_file fs
  | VECTORSTORE_DIR => bool_decide (is_Some (vectorstore_dir fs))
  | CATALOG =>
      match vectorstore_dir fs with
      | Some names => bool_decide ("chroma.sqlite3"%string ∈ names)
      | None => false
      end
  end.

(** Handles of library objects; the number is the object's identity. *)
Inductive LLM := LLMHandle (id : nat).
Inductive Embeddings := EmbeddingsHandle (id : nat).
Inductive VectorStore := VectorStoreHandle (id : nat).

(** The chain built by [create_retrieval_chain]: the retriever
    ([vectorstore.as_retriever(search_kwargs={"k": RETRIEVER_K})]) and the
    document chain over [self.llm]; the prompt is the constant
    [SYSTEM_PROMPT]. *)
Record RagChain := mkRagChain {
  chain_store : VectorStore;
  chain_k : Z;
  chain_llm : option LLM
}.

(** The dict [rag_chain.invoke] returns; the program reads the keys
    ["context"] (with [.get], so it may be missing) and ["answer"]. *)
Record Response := mkResponse {
  r_context : option (list Document);
  r_answer : option pystr
}.

(** The calls the properties speak of, in the order they are made: the
    construction of the two model clients, the tests and changes of the
    file system, the calls on the index and on the chain.  The four calls
    that build the chain object are not recorded. *)
Inductive Event :=
| EvChatGoogleGenerativeAI
| EvGoogleGenerativeAIEmbeddings
| EvExists (p : Path) (r : bool)
| EvChroma
| EvPyPDFLoader_load
| EvSplit_documents
| EvChroma_from_documents
| EvRmtree
| EvMkdir
| EvInvoke (chain : RagChain) (question : pystr).

(** The libraries.  Each call receives the number of recorded calls made
    before it, so an answer may differ from one call to the next (network,
    quota).  [Chroma] opens the persisted directory (modelled as a read of
    it), [Chroma_from_documents] embeds the chunks and writes the
    directory.  [invoke] retrieves and generates; the store behind the
    retriever may write its directory while doing so, and
    [invoke_directory] is the directory as that call leaves it.
    [as_retriever], [from_template], [create_stuff_documents_chain] and
    [create_retrieval_chain] build the chain object from their arguments:
    the library can only accept or raise. *)
Record Externals := mkExternals {
  BASE_DIR : pystr;
  ChatGoogleGenerativeAI : nat -> string -> Z -> Result LLM;
  GoogleGenerativeAIEmbeddings : nat -> string -> Result Embeddings;
  Chroma : nat -> option (list string) -> option Embeddings -> Result VectorStore;
  PyPDFLoader_load : nat -> Result (list Document);
  split_documents : nat -> Z -> Z -> list Document -> Result (list Document);
  Chroma_from_documents :
    nat -> list Document -> option Embeddings -> option (list string) ->
    Result VectorStore * option (list string);
  invoke : nat -> RagChain -> FileSystem -> pystr -> Result Response;
  invoke_directory :
    nat -> RagChain -> FileSystem -> pystr -> option (list string);
  as_retriever : nat -> VectorStore -> Z -> Result unit;
  from_template : nat -> Result unit;
  create_stuff_documents_chain : nat -> option LLM -> Result unit;
  create_retrieval_chain : nat -> VectorStore -> Z -> option LLM -> Result unit
}.

(** ** [config.py] *)

Module config.
Definition LLM_MODEL : string := "gemini-1.5-flash".
Definition LLM_TEMPERATURE : Z := 0.
Definition EMBEDDING_MODEL : string := "models/text-embedding-004".
Definition CHUNK_SIZE : Z := 5000.
Definition CHUNK_OVERLAP : Z := 1000.
Definition RETRIEVER_K : Z := 3.
(** [str(PDF_PATH)], with [PDF_PATH = BASE_DIR / "data" / "constitucion_colombia.pdf"]. *)
Definition PDF_PATH_str (base : pystr) : pystr :=
  base ++ lit "/data/constitucion_colombia.pdf".
End config.

(** ** Process state and the monad of Python code *)

(** [RAGEngine] objects: the four attributes set in [__init__]. *)
Record RAGEngine := mkRAGEngine {
  llm : option LLM;
  embeddings : option Embeddings;
  vectorstore : option VectorStore;
  rag_chain : option RagChain
}.

(** [heap] holds every [RAGEngine] object ever allocated, an object's
    reference is its index; [_rag_instance] is the module global of
    [rag_engine.py] ([None] or a reference). *)
Record Process := mkProcess {
  fsys : FileSystem;
  heap : list RAGEngine;
  _rag_instance : option nat;
  trace : list Event
}.

Definition Py (A : Type) : Type := Process -> Result A * Process.

Definition ret {A} (a : A) : Py A := fun s => (Ok a, s).

Definition raise {A} (e : Exn) : Py A := fun s => (Raise e, s).

Definition bind {A B} (m : Py A) (k : A -> Py B) : Py B :=
  fun s =>
    match m s with
    | (Ok a, s') => k a s'
    | (Raise e, s') => (Raise e, s')
    end.

(** [try: m  except Exception as e: h e].  Every exception of the model is
    an [Exception]; what [m] did to the state before raising stays done. *)
Definition try_except {A} (m : Py A) (h : Exn -> Py A) : Py A :=
  fun s =>
    match m s with
    | (Ok a, s') => (Ok a, s')
    | (Raise e, s') => h e s'
    end.

Notation "'let*' x ':=' m 'in' k" := (bind m (fun x => k))
  (at level 10, x name, m at level 100, k at level 200).
Notation "m ';;;' k" := (bind m (fun _ => k))
  (at level 100, k at level 200, right associativity).

Definition with_fsys (fs : FileSystem) (s : Process) : Process :=
  mkProcess fs (heap s) (_rag_instance s) (trace s).
Definition with_heap (h : list RAGEngine) (s : Process) : Process :=
  mkProcess (fsys s) h (_rag_instance s) (trace s).
Definition with_instance (i : option nat) (s : Process) : Process :=
  mkProcess (fsys s) (heap s) i (trace s).
Definition log (ev : Event) (s : Process) : Process :=
  mkProcess (fsys s) (heap s) (_rag_instance s) (trace s ++ [ev]).

(** A library call that touches no file. *)
Definition call {A} (ev : Event) (f : nat -> Result A) : Py A :=
  fun s => (f (length (trace s)), log ev s).

(** A library call that builds an object in memory and is not recorded. *)
Definition construct {A} (f : nat -> Result A) : Py A :=
  fun s => (f (length (trace s)), s).

(** [p.exists()]. *)
Definition exists_ (p : Path) : Py bool :=
  fun s => let b := path_exists (fsys s) p in (Ok b, log (EvExists p b) s).

(** [shutil.rmtree(VECTORSTORE_DIR)]. *)
Definition rmtree_vectorstore_dir : Py unit :=
  fun s =>
    match vectorstore_dir (fsys s) with
    | Some _ => (Ok tt, log EvRmtree (with_fsys (mkFileSystem (pdf_file (fsys s)) None) s))
    | None => (Raise (FileNotFoundError (lit "vectorstore")), log EvRmtree s)
    end.

(** [VECTORSTORE_DIR.mkdir()]. *)
Definition mkdir_vectorstore_dir : Py unit :=
  fun s =>
    match vectorstore_dir (fsys s) with
    | Some _ => (Raise (FileExistsError (lit "vectorstore")), log EvMkdir s)
    | None => (Ok tt, log EvMkdir (with_fsys (mkFileSystem (pdf_file (fsys s)) (Some [])) s))
    end.

(** Object allocation, attribute reads and attribute writes. *)
Definition alloc (o : RAGEngine) : Py nat :=
  fun s => (Ok (length (heap s)), with_heap (heap s ++ [o]) s).

Definition getattr {A} (f : RAGEngine -> option A) (self : nat) : Py (option A) :=
  fun s => (Ok (heap s !! self ≫= f), s).

Definition setattr (upd : RAGEngine -> RAGEngine) (self : nat) : Py unit :=
  fun s => (Ok tt, with_heap (alter upd self (heap s)) s).

Definition set_llm (v : LLM) (o : RAGEngine) : RAGEngine :=
  mkRAGEngine (Some v) (embeddings o) (vectorstore o) (rag_chain o).
Definition set_embeddings (v : Embeddings) (o : RAGEngine) : RAGEngine :=
  mkRAGEngine (llm o) (Some v) (vectorstore o) (rag_chain o).
Definition set_vectorstore (v : VectorStore) (o : RAGEngine) : RAGEngine :=
  mkRAGEngine (llm o) (embeddings o) (Some v) (rag_chain o).
Definition set_rag_chain (v : RagChain) (o : RAGEngine) : RAGEngine :=
  mkRAGEngine (llm o) (embeddings o) (vectorstore o) (Some v).

(** ** [rag_engine.py] *)

Module rag_engine.
Section WithExternals.
Variable X : Externals.

(** [RAGEngine._vectorstore_exists]. *)
Definition _vectorstore_exists : Py bool := exists_ CATALOG.

(** [RAGEngine._load_vectorstore]. *)
Definition _load_vectorstore (self : nat) : Py unit :=
  let* emb := getattr embeddings self in
  let* vs := (fun s => call EvChroma
                (fun t => Chroma X t (vectorstore_dir (fsys s)) emb) s) in
  setattr (set_vectorstore vs) self.

(** The message of the [FileNotFoundError] of [_create_vectorstore]
    (its first character is U+274C). *)
Definition pdf_not_found_msg : pystr :=
  [10060%N] ++ lit " PDF no encontrado en: " ++ config.PDF_PATH_str (BASE_DIR X)
  ++ [10%N]
  ++ lit "Por favor, coloca 'constitucion_colombia.pdf' en la carpeta 'data/'".

(** [Chroma.from_documents(documents=splits, embedding=self.embeddings,
    persist_directory=str(VECTORSTORE_DIR))]: the one library call that
    writes the directory. *)
Definition from_documents (splits : list Document) (emb : option Embeddings)
  : Py VectorStore :=
  fun s =>
    let '(r, d) := Chroma_from_documents X (length (trace s)) splits emb
                     (vectorstore_dir (fsys s)) in
    (r, log EvChroma_from_documents
          (with_fsys (mkFileSystem (pdf_file (fsys s)) d) s)).

(** [RAGEngine._create_vectorstore]. *)
Definition _create_vectorstore (self : nat) : Py unit :=
  let* pdf := exists_ PDF_PATH in
  if negb pdf then raise (FileNotFoundError pdf_not_found_msg)
  else
    let* documents := call EvPyPDFLoader_load (PyPDFLoader_load X) in
    let* splits := call EvSplit_documents
                     (fun t => split_documents X t config.CHUNK_SIZE
                                 config.CHUNK_OVERLAP documents) in
    let* emb := getattr embeddings self in
    let* vs := from_documents splits emb in
    setattr (set_vectorstore vs) self.

(** [RAGEngine._create_rag_chain]: the retriever, the prompt, the document
    chain and the retrieval chain are built in this order, and
    [self.rag_chain] is assigned once all four calls have returned;
    [self.vectorstore.as_retriever] on [None] is an [AttributeError]. *)
Definition _create_rag_chain (self : nat) : Py unit :=
  let* vs := getattr vectorstore self in
  match vs with
  | None =>
      raise (AttributeError
               (lit "'NoneType' object has no attribute 'as_retriever'"))
  | Some v =>
      construct (fun t => as_retriever X t v config.RETRIEVER_K) ;;;
      construct (from_template X) ;;;
      let* l := getattr llm self in
      construct (fun t => create_stuff_documents_chain X t l) ;;;
      construct (fun t => create_retrieval_chain X t v config.RETRIEVER_K l) ;;;
      setattr (set_rag_chain (mkRagChain v config.RETRIEVER_K l)) self
  end.

(** [RAGEngine._initialize]. *)
Definition _initialize (self : nat) : Py unit :=
  let* l := call EvChatGoogleGenerativeAI
              (fun t => ChatGoogleGenerativeAI X t config.LLM_MODEL
                          config.LLM_TEMPERATURE) in
  setattr (set_llm l) self ;;;
  let* e := call EvGoogleGenerativeAIEmbeddings
              (fun t => GoogleGenerativeAIEmbeddings X t config.EMBEDDING_MODEL) in
  setattr (set_embeddings e) self ;;;
  let* present := _vectorstore_exists in
  (if present then _load_vectorstore self else _create_vectorstore self) ;;;
  _create_rag_chain self.

(** [RAGEngine()]: a new object whose four attributes are [None], then
    [_initialize] ([__init__] also exports the API key to [os.environ],
    which no later step of the program reads back). *)
Definition RAGEngine_new : Py nat :=
  let* self := alloc (mkRAGEngine None None None None) in
  _initialize self ;;;
  ret self.

(** One entry of [sources]: the dict with keys ["page"] and ["content"]. *)
Definition source_of (doc : Document) : gmap string PyVal :=
  {[ "page"%string := dict_get (metadata doc) "page" (PyStr (lit "N/A"));
     "content"%string :=
       PyStr (if 200 <? len (page_content doc)
              then slice_to 200 (page_content doc) ++ lit "..."
              else page_content doc) ]}.

(** The dict [query] returns. *)
Record QueryResult := mkQueryResult {
  answer : pystr;
  sources : list (gmap string PyVal);
  question : pystr
}.

(** [self.rag_chain.invoke({"input": question})]: the call is recorded and
    the vectorstore directory is afterwards what the library left. *)
Definition invoke_chain (c : RagChain) (q : pystr) : Py Response :=
  fun s =>
    (invoke X (length (trace s)) c (fsys s) q,
     log (EvInvoke c q)
       (with_fsys
          (mkFileSystem (pdf_file (fsys s))
             (invoke_directory X (length (trace s)) c (fsys s) q)) s)).

(** [RAGEngine.query]; [response["answer"]] on a dict without that key is
    [KeyError("answer")]. *)
Definition query (self : nat) (q : pystr) : Py QueryResult :=
  let* chain := getattr rag_chain self in
  match chain with
  | None =>
      raise (AttributeError (lit "'NoneType' object has no attribute 'invoke'"))
  | Some c =>
      let* response := invoke_chain c q in
      let srcs := map source_of (default [] (r_context response)) in
      match r_answer response with
      | None => raise (KeyError (lit "'answer'"))
      | Some a => ret (mkQueryResult a srcs q)
      end
  end.

(** [RAGEngine.rebuild_vectorstore]. *)
Definition rebuild_vectorstore (self : nat) : Py unit :=
  let* present := exists_ VECTORSTORE_DIR in
  (if present
   then rmtree_vectorstore_dir ;;; mkdir_vectorstore_dir
   else ret tt) ;;;
  _create_vectorstore self ;;;
  _create_rag_chain self.

(** [get_rag_engine]: [_rag_instance] is assigned only after [RAGEngine()]
    has returned. *)
Definition get_rag_engine : Py nat :=
  let* inst := (fun s => (Ok (_rag_instance s), s)) in
  match inst with
  | None =>
      let* e := RAGEngine_new in
      (fun s => (Ok tt, with_instance (Some e) s)) ;;;
      ret e
  | Some e => ret e
  end.

End WithExternals.
End rag_engine.

(** ** [main.py] *)

Module main.

(** The pydantic models. *)
Module QueryRequest.
Record t := mk { question : pystr }.
Definition min_length : Z := 3.
Definition max_length : Z := 500.
(** Validation of the [question] field when the model is built. *)
Definition validate (q : pystr) : Result t :=
  if len q <? min_length
  then Raise (ValidationError (lit "String should have at least 3 characters"))
  else if max_length <? len q
  then Raise (ValidationError (lit "String should have at most 500 characters"))
  else Ok (mk q).
End QueryRequest.

Module Source.
Record t := mk { page : PyVal; content : pystr }.
(** [Source] built from the keys of a source dict: both fields are
    required, [content] is a [str]. *)
Definition from_dict (d : gmap string PyVal) : Result t :=
  match d !! "page"%string, d !! "content"%string with
  | Some p, Some (PyStr c) => Ok (mk p c)
  | _, _ => Raise (ValidationError (lit "validation error for Source"))
  end.
End Source.

Module QueryResponse.
Record t := mk { answer : pystr; sources : list Source.t; question : pystr }.
End QueryResponse.

Module HealthResponse.
Record t := mk { status : pystr; message : pystr; vectorstore_ready : bool }.
End HealthResponse.

(** The dict [rebuild_vectorstore] returns. *)
Module RebuildResult.
Record t := mk { status : pystr; message : pystr }.
End RebuildResult.

(** A list comprehension whose element expression may raise. *)
Fixpoint comprehension {A B} (f : A -> Result B) (l : list A) : Result (list B) :=
  match l with
  | [] => Ok []
  | a :: l' =>
      match f a with
      | Raise e => Raise e
      | Ok b =>
          match comprehension f l' with
          | Raise e => Raise e
          | Ok bs => Ok (b :: bs)
          end
      end
  end.

Definition lift {A} (r : Result A) : Py A := fun s => (r, s).

Section WithExternals.
Variable X : Externals.

(** [startup_event]: a failed construction is printed and swallowed. *)
Definition startup_event : Py unit :=
  try_except
    (rag_engine.get_rag_engine X ;;; ret tt)
    (fun e => ret tt).

(** [health_check]. *)
Definition health_check : Py HealthResponse.t :=
  try_except
    (let* engine := rag_engine.get_rag_engine X in
     let* vs := getattr vectorstore engine in
     let vectorstore_ready := bool_decide (is_Some vs) in
     ret (HealthResponse.mk (lit "healthy")
            (lit "API funcionando correctamente") vectorstore_ready))
    (fun e =>
       ret (HealthResponse.mk (lit "unhealthy")
              (lit "Error: " ++ str_exn e) false)).

(** The part of [query_constitution] inside [try]. *)
Definition query_constitution_body (request : QueryRequest.t)
  : Py QueryResponse.t :=
  let* engine := rag_engine.get_rag_engine X in
  let* result := rag_engine.query X engine (QueryRequest.question request) in
  let* srcs := lift (comprehension Source.from_dict (rag_engine.sources result)) in
  ret (QueryResponse.mk (rag_engine.answer result) srcs
         (rag_engine.question result)).

(** [query_constitution]. *)
Definition query_constitution (request : QueryRequest.t) : Py QueryResponse.t :=
  try_except
    (query_constitution_body request)
    (fun e =>
       raise (HTTPException 500 (lit "Error al procesar consulta: " ++ str_exn e))).

(** The part of [rebuild_vectorstore] inside [try]. *)
Definition rebuild_vectorstore_body : Py RebuildResult.t :=
  let* engine := rag_engine.get_rag_engine X in
  rag_engine.rebuild_vectorstore X engine ;;;
  ret (RebuildResult.mk (lit "success")
         (lit "Vectorstore reconstruido exitosamente")).

(** [rebuild_vectorstore] (the endpoint). *)
Definition rebuild_vectorstore : Py RebuildResult.t :=
  try_except
    rebuild_vectorstore_body
    (fun e =>
       raise (HTTPException 500
                (lit "Error al reconstruir vectorstore: " ++ str_exn e))).

(** *** The routes

    FastAPI builds the handler's argument from the request body before it
    calls the handler: a body the model rejects is answered 422 and the
    handler does not run.  An [HTTPException] becomes a response with its
    status code and detail. *)
Inductive Request :=
| GET_health
| POST_query (question : pystr)
| POST_rebuild_vectorstore.

Inductive HttpResponse :=
| Http200_health (b : HealthResponse.t)
| Http200_query (b : QueryResponse.t)
| Http200_rebuild (b : RebuildResult.t)
| Http422
| HttpError (status_code : Z) (detail : pystr).

Definition respond {A} (wrap : A -> HttpResponse) (m : Py A)
  : Process -> HttpResponse * Process :=
  fun s =>
    match m s with
    | (Ok a, s') => (wrap a, s')
    | (Raise (HTTPException c d), s') => (HttpError c d, s')
    | (Raise _, s') => (HttpError 500 (lit "Internal Server Error"), s')
    end.

Definition serve (r : Request) : Process -> HttpResponse * Process :=
  match r with
  | GET_health => respond Http200_health health_check
  | POST_query q =>
      match QueryRequest.validate q with
      | Raise _ => fun s => (Http422, s)
      | Ok request => respond Http200_query (query_constitution request)
      end
  | POST_rebuild_vectorstore => respond Http200_rebuild rebuild_vectorstore
  end.

(** The process after a sequence of requests. *)
Fixpoint serve_all (rs : list Request) (s : Process) : Process :=
  match rs with
  | [] => s
  | r :: rs' => serve_all rs' (serve r s).2
  end.

End WithExternals.
End main.

(** ** Concrete worlds

    Libraries and file systems used to run the program on explicit inputs. *)

Module World.

(** A chunk of page 42 with 201 characters, and one without a page. *)
Definition doc_long : Document :=
  mkDocument (replicate 201 97%N) {[ "page"%string := PyInt 42 ]}.
Definition doc_unpaged : Document :=
  mkDocument (lit "Articulo 86") ∅.

(** Every library call succeeds. *)
Definition answering : Externals :=
  {| BASE_DIR := lit "/app";
     ChatGoogleGenerativeAI := fun _ _ _ => Ok (LLMHandle 0);
     GoogleGenerativeAIEmbeddings := fun _ _ => Ok (EmbeddingsHandle 0);
     Chroma := fun _ _ _ => Ok (VectorStoreHandle 0);
     PyPDFLoader_load := fun _ => Ok [doc_long; doc_unpaged];
     split_documents := fun _ _ _ docs => Ok docs;
     Chroma_from_documents :=
       fun _ _ _ _ => (Ok (VectorStoreHandle 1), Some ["chroma.sqlite3"%string]);
     invoke := fun _ _ _ _ =>
       Ok (mkResponse (Some [doc_long; doc_unpaged]) (Some (lit "Articulo 86.")));
     invoke_directory := fun _ _ fs _ => vectorstore_dir fs;
     as_retriever := fun _ _ _ => Ok tt;
     from_template := fun _ => Ok tt;
     create_stuff_documents_chain := fun _ _ => Ok tt;
     create_retrieval_chain := fun _ _ _ _ => Ok tt |}.

(** The PDF loader raises. *)
Definition loader_fails : Externals :=
  {| BASE_DIR := BASE_DIR answering;
     ChatGoogleGenerativeAI := ChatGoogleGenerativeAI answering;
     GoogleGenerativeAIEmbeddings := GoogleGenerativeAIEmbeddings answering;
     Chroma := Chroma answering;
     PyPDFLoader_load := fun _ => Raise (LibraryError (lit "timeout"));
     split_documents := split_documents answering;
     Chroma_from_documents := Chroma_from_documents answering;
     invoke := invoke answering;
     invoke_directory := invoke_directory answering;
     as_retriever := as_retriever answering;
     from_template := from_template answering;
     create_stuff_documents_chain := create_stuff_documents_chain answering;
     create_retrieval_chain := create_retrieval_chain answering |}.

(** The embedding call inside [Chroma.from_documents] raises. *)
Definition embedding_fails : Externals :=
  {| BASE_DIR := BASE_DIR answering;
     ChatGoogleGenerativeAI := ChatGoogleGenerativeAI answering;
     GoogleGenerativeAIEmbeddings := GoogleGenerativeAIEmbeddings answering;
     Chroma := Chroma answering;
     PyPDFLoader_load := PyPDFLoader_load answering;
     split_documents := split_documents answering;
     Chroma_from_documents :=
       fun _ _ _ d => (Raise (LibraryError (lit "timeout")), d);
     invoke := invoke answering;
     invoke_directory := invoke_directory answering;
     as_retriever := as_retriever answering;
     from_template := from_template answering;
     create_stuff_documents_chain := create_stuff_documents_chain answering;
     create_retrieval_chain := create_retrieval_chain answering |}.

(** A process that has not yet touched the engine. *)
Definition boot (fs : FileSystem) : Process := mkProcess fs [] None [].

(** An index built earlier, the PDF since removed. *)
Definition indexed_without_pdf : FileSystem :=
  mkFileSystem false (Some ["chroma.sqlite3"%string]).
(** An index and the PDF. *)
Definition indexed_with_pdf : FileSystem :=
  mkFileSystem true (Some ["chroma.sqlite3"%string]).
(** Neither the PDF nor an index. *)
Definition nothing : FileSystem := mkFileSystem false (Some []).

End World.

(** ** Observations on runs *)

(** The calls a run added to the trace. *)
Definition new_events (s s' : Process) : list Event :=
  drop (length (trace s)) (trace s').

(** The ingestion pipeline, in call order. *)
Definition ingestion_calls : list Event :=
  [EvPyPDFLoader_load; EvSplit_documents; EvChroma_from_documents].

(** The phases an operator tells apart, and the phase a library call
    belongs to.  [invoke] is one call for retrieval and generation, so no
    single phase is attached to it. *)
Inductive Phase := Load | Embed | Retrieve | Generate.

Definition phase_of_call (ev : Event) : option Phase :=
  match ev with
  | EvPyPDFLoader_load => Some Load
  | EvChroma_from_documents => Some Embed
  | _ => None
  end.

(** The process once the chain [c] has been invoked on [q]: the call is in
    the trace and the vectorstore directory is what the library left. *)
Definition after_invoke (X : Externals) (c : RagChain) (q : pystr)
    (s : Process) : Process :=
  mkProcess
    (mkFileSystem (pdf_file (fsys s))
       (invoke_directory X (length (trace s)) c (fsys s) q))
    (heap s) (_rag_instance s) (trace s ++ [EvInvoke c q]).

(** The four calls of [_create_rag_chain] at time [t], the first failure
    winning. *)
Definition chain_built (X : Externals) (t : nat) (v : VectorStore)
    (l : option LLM) : Result unit :=
  match as_retriever X t v config.RETRIEVER_K with
  | Raise e => Raise e
  | Ok _ =>
      match from_template X t with
      | Raise e => Raise e
      | Ok _ =>
          match create_stuff_documents_chain X t l with
          | Raise e => Raise e
          | Ok _ => create_retrieval_chain X t v config.RETRIEVER_K l
          end
      end
  end.

(** The status code of an answer. *)
Definition status_code (r : main.HttpResponse) : Z :=
  match r with
  | main.Http200_health _ | main.Http200_query _ | main.Http200_rebuild _ => 200
  | main.Http422 => 422
  | main.HttpError c _ => c
  end.

(** A method that does not rebind the global [_rag_instance]. *)
Definition keeps_global {A} (m : Py A) : Prop :=
  forall s, _rag_instance (m s).2 = _rag_instance s.

(** A method that constructs no [RAGEngine]. *)
Definition allocates_nothing {A} (m : Py A) : Prop :=
  forall s, length (heap (m s).2) = length (heap s).

(** The process once [rebuild_vectorstore] has emptied the directory: an
    existing directory is removed and made again, a missing one is left
    missing. *)
Definition after_delete (s : Process) : Process :=
  match vectorstore_dir (fsys s) with
  | Some _ =>
      mkProcess (mkFileSystem (pdf_file (fsys s)) (Some [])) (heap s)
        (_rag_instance s)
        (trace s ++ [EvExists VECTORSTORE_DIR true; EvRmtree; EvMkdir])
  | None =>
      mkProcess (fsys s) (heap s) (_rag_instance s)
        (trace s ++ [EvExists VECTORSTORE_DIR false])
  end.

(** Running processes of the concrete worlds. *)
Module Scenario.
Import World.

(** The engine was loaded from an index whose PDF is gone. *)
Definition loaded_without_pdf : Process :=
  (rag_engine.get_rag_engine answering (boot indexed_without_pdf)).2.

(** The engine was loaded from an index, the PDF is still there. *)
Definition loaded : Process :=
  (rag_engine.get_rag_engine answering (boot indexed_with_pdf)).2.

(** The same, in the world whose PDF loader raises. *)
Definition loaded_with_loader_failing : Process :=
  (rag_engine.get_rag_engine loader_fails (boot indexed_with_pdf)).2.
End Scenario.

(** ** Readings of the specification that the code is compared with *)

Module Stated.

(** [query] turns the question away with no call made. *)
Definition rejected_before_any_call (X : Externals) (self : nat) (q : pystr)
    (s : Process) : Prop :=
  exists e, rag_engine.query X self q s = (Raise e, s).

(** The orchestrator's [query] validates the question: lengths 0, 2 and
    501 are turned away before retrieval or generation. *)
Definition query_validates (X : Externals) (self : nat) (s : Process) : Prop :=
  forall q, q = [] \/ len q = 2 \/ len q = 501 ->
            rejected_before_any_call X self q s.

(** After a rebuild that failed the orchestrator is in a failed state that
    can be told from the ready one: [GET /health] no longer answers
    ["healthy"], or every query is turned away before any call is made. *)
Definition failed_rebuild_is_marked (X : Externals) (s : Process) : Prop :=
  forall d s1,
    main.serve X main.POST_rebuild_vectorstore s = (main.HttpError 500 d, s1) ->
    (exists h s2,
       main.serve X main.GET_health s1 = (main.Http200_health h, s2)
       /\ main.HealthResponse.status h <> lit "healthy")
    \/ (forall q, new_events s1 (main.serve X (main.POST_query q) s1).2 = []).

(** No query changes the persisted index directory. *)
Definition query_leaves_index (X : Externals) (self : nat) (s : Process) : Prop :=
  forall q,
    vectorstore_dir (fsys (rag_engine.query X self q s).2)
    = vectorstore_dir (fsys s).

(** Two calls of [get_rag_engine] construct at most one [RAGEngine] and
    the second runs no initialization. *)
Definition at_most_one_construction (X : Externals) (s : Process) : Prop :=
  let s1 := (rag_engine.get_rag_engine X s).2 in
  let s2 := (rag_engine.get_rag_engine X s1).2 in
  (length (heap s2) <= 1)%nat /\ trace s2 = trace s1.

(** The detail of a 500 tells which phase failed: the phase of the
    failing call can be read off the detail. *)
Definition detail_states_phase : Prop :=
  exists phase_of_detail : pystr -> Phase,
    forall X s d s' ev p,
      main.serve X main.POST_rebuild_vectorstore s = (main.HttpError 500 d, s') ->
      last (trace s') = Some ev ->
      phase_of_call ev = Some p ->
      phase_of_detail d = p.

End Stated.

(** ** The module body of [config.py]

    Importing [config] makes the two directories, then reads the API key
    and refuses an unset or empty one.  [load_dotenv] only fills the
    environment, so the import is given the value [os.getenv] returns. *)

Module config_import.

(** The disk as the import sees it: the [data] directory and the files of
    the engine. *)
Record Disk := mkDisk {
  data_dir : bool;
  files : FileSystem
}.

(** [VECTORSTORE_DIR.mkdir(exist_ok=True)]: an existing directory is kept
    with its entries. *)
Definition mkdir_exist_ok (fs : FileSystem) : FileSystem :=
  match vectorstore_dir fs with
  | Some _ => fs
  | None => mkFileSystem (pdf_file fs) (Some [])
  end.

(** The import either binds [GOOGLE_API_KEY] or raises [ValueError]. *)
Inductive Outcome :=
| Imported (GOOGLE_API_KEY : pystr)
| ValueError (msg : pystr).

(** The message of the [ValueError] (its first character is U+274C). *)
Definition missing_key_msg : pystr :=
  [10060%N] ++ lit " GOOGLE_API_KEY no encontrada. "
  ++ lit "Crea un archivo .env con: GOOGLE_API_KEY=tu_key".

(** [import config], given [os.getenv("GOOGLE_API_KEY")]; [not key] holds
    of [None] and of the empty string. *)
Definition import_config (getenv : option pystr) (d : Disk) : Outcome * Disk :=
  let d1 := mkDisk true (files d) in
  let d2 := mkDisk (data_dir d1) (mkdir_exist_ok (files d1)) in
  match getenv with
  | None => (ValueError missing_key_msg, d2)
  | Some [] => (ValueError missing_key_msg, d2)
  | Some key => (Imported key, d2)
  end.

End config_import.

(** ** Well-formed engines and invariants of runs *)

(** An engine that can serve: both clients, a store, and a chain built
    over the engine's LLM with [k = RETRIEVER_K]. *)
Definition wired (o : RAGEngine) : Prop :=
  exists l em v c,
    o = mkRAGEngine (Some l) (Some em) (Some v) (Some c)
    /\ chain_k c = config.RETRIEVER_K
    /\ chain_llm c = Some l.

(** The engine published in [_rag_instance], if any, is a wired object. *)
Definition instance_wired (s : Process) : Prop :=
  forall e, _rag_instance s = Some e ->
            exists o, heap s !! e = Some o /\ wired o.

(** The calls [rebuild_vectorstore] makes before ingestion. *)
Definition delete_events (s : Process) : list Event :=
  match vectorstore_dir (fsys s) with
  | Some _ => [EvExists VECTORSTORE_DIR true; EvRmtree; EvMkdir]
  | None => [EvExists VECTORSTORE_DIR false]
  end.

(** The preview [query] puts in a source. *)
Definition preview (text : pystr) : pystr :=
  if 200 <? len text then slice_to 200 text ++ lit "..." else text.

(** More concrete worlds. *)
Module World2.

(** The LLM client cannot be constructed. *)
Definition llm_fails : Externals :=
  {| BASE_DIR := BASE_DIR World.answering;
     ChatGoogleGenerativeAI := fun _ _ _ => Raise (LibraryError (lit "bad model"));
     GoogleGenerativeAIEmbeddings := GoogleGenerativeAIEmbeddings World.answering;
     Chroma := Chroma World.answering;
     PyPDFLoader_load := PyPDFLoader_load World.answering;
     split_documents := split_documents World.answering;
     Chroma_from_documents := Chroma_from_documents World.answering;
     invoke := invoke World.answering;
     invoke_directory := invoke_directory World.answering;
     as_retriever := as_retriever World.answering;
     from_template := from_template World.answering;
     create_stuff_documents_chain := create_stuff_documents_chain World.answering;
     create_retrieval_chain := create_retrieval_chain World.answering |}.

(** The chain answers without an ["answer"] key. *)
Definition answerless : Externals :=
  {| BASE_DIR := BASE_DIR World.answering;
     ChatGoogleGenerativeAI := ChatGoogleGenerativeAI World.answering;
     GoogleGenerativeAIEmbeddings := GoogleGenerativeAIEmbeddings World.answering;
     Chroma := Chroma World.answering;
     PyPDFLoader_load := PyPDFLoader_load World.answering;
     split_documents := split_documents World.answering;
     Chroma_from_documents := Chroma_from_documents World.answering;
     invoke := fun _ _ _ _ => Ok (mkResponse (Some [World.doc_long]) None);
     invoke_directory := invoke_directory World.answering;
     as_retriever := as_retriever World.answering;
     from_template := from_template World.answering;
     create_stuff_documents_chain := create_stuff_documents_chain World.answering;
     create_retrieval_chain := create_retrieval_chain World.answering |}.

(** A store that needs its catalog: without [chroma.sqlite3] in the
    directory the chain raises, and the store makes the file again. *)
Definition chroma_like : Externals :=
  {| BASE_DIR := BASE_DIR World.answering;
     ChatGoogleGenerativeAI := ChatGoogleGenerativeAI World.answering;
     GoogleGenerativeAIEmbeddings := GoogleGenerativeAIEmbeddings World.answering;
     Chroma := Chroma World.answering;
     PyPDFLoader_load := PyPDFLoader_load World.answering;
     split_documents := split_documents World.answering;
     Chroma_from_documents := Chroma_from_documents World.answering;
     invoke := fun _ _ fs _ =>
       if path_exists fs CATALOG
       then Ok (mkResponse (Some [World.doc_long]) (Some (lit "Articulo 86.")))
       else Raise (LibraryError (lit "no such table: collections"));
     invoke_directory := fun _ _ fs _ =>
       if path_exists fs CATALOG
       then vectorstore_dir fs
       else Some ("chroma.sqlite3"%string :: default [] (vectorstore_dir fs));
     as_retriever := as_retriever World.answering;
     from_template := from_template World.answering;
     create_stuff_documents_chain := create_stuff_documents_chain World.answering;
     create_retrieval_chain := create_retrieval_chain World.answering |}.

(** With that store: the engine was loaded from an index whose PDF is
    gone, and the same process after [POST /rebuild-vectorstore]. *)
Definition loaded_without_pdf : Process :=
  (rag_engine.get_rag_engine chroma_like (World.boot World.indexed_without_pdf)).2.
Definition after_failed_rebuild : Process :=
  (main.serve chroma_like main.POST_rebuild_vectorstore loaded_without_pdf).2.

(** A disk with an index and no [data] directory. *)
Definition indexed_disk : config_import.Disk :=
  config_import.mkDisk false World.indexed_without_pdf.

End World2.

(** * Properties *)

(** ** Running the monad *)

Lemma bind_ok {A B} (m : Py A) (k : A -> Py B) s a s' :
  m s = (Ok a, s') -> bind m k s = k a s'.
Proof. intros H. unfold bind. now rewrite H. Qed.

Lemma bind_raise {A B} (m : Py A) (k : A -> Py B) s e s' :
  m s = (Raise e, s') -> bind m k s = (Raise e, s').
Proof. intros H. unfold bind. now rewrite H. Qed.

Lemma bind_inv {A B} (m : Py A) (k : A -> Py B) s r s2 :
  bind m k s = (r, s2) ->
  (exists e, m s = (Raise e, s2) /\ r = Raise e)
  \/ (exists a s1, m s = (Ok a, s1) /\ k a s1 = (r, s2)).
Proof.
  unfold bind. destruct (m s) as [[a|e] s1]; intros H.
  - right. eauto.
  - left. inversion H; subst. eauto.
Qed.

(** ** [query] *)

(** What [query] does, by cases on the chain attribute, the library's
    answer and the ["answer"] key. *)
Lemma query_run X self q s :
  rag_engine.query X self q s =
  match heap s !! self ≫= rag_chain with
  | None =>
      (Raise (AttributeError (lit "'NoneType' object has no attribute 'invoke'")), s)
  | Some c =>
      match invoke X (length (trace s)) c (fsys s) q with
      | Raise e => (Raise e, after_invoke X c q s)
      | Ok response =>
          match r_answer response with
          | None => (Raise (KeyError (lit "'answer'")), after_invoke X c q s)
          | Some a =>
              (Ok (rag_engine.mkQueryResult a
                     (map (rag_engine.source_of) (default [] (r_context response))) q),
               after_invoke X c q s)
          end
      end
  end.
Proof.
  unfold rag_engine.query, rag_engine.invoke_chain, bind, getattr, raise, ret.
  destruct (heap s !! self ≫= rag_chain) as [c|]; [|reflexivity].
  destruct (invoke X _ c (fsys s) q) as [response|e]; [|reflexivity].
  destruct (r_answer response); reflexivity.
Qed.

Lemma after_invoke_events X c q s :
  new_events s (after_invoke X c q s) = [EvInvoke c q].
Proof. unfold new_events, after_invoke. cbn [trace]. apply drop_app_length. Qed.

Lemma source_of_content doc :
  rag_engine.source_of doc !! "content"%string =
  Some (PyStr (if 200 <? len (page_content doc)
               then slice_to 200 (page_content doc) ++ lit "..."
               else page_content doc)).
Proof.
  unfold rag_engine.source_of.
  rewrite lookup_insert_ne by discriminate. apply lookup_singleton_eq.
Qed.

Lemma source_of_page doc :
  rag_engine.source_of doc !! "page"%string =
  Some (dict_get (metadata doc) "page" (PyStr (lit "N/A"))).
Proof. unfold rag_engine.source_of. apply lookup_insert_eq. Qed.

Lemma comprehension_sources docs :
  main.comprehension main.Source.from_dict (map rag_engine.source_of docs) =
  Ok (map (fun doc =>
             main.Source.mk
               (dict_get (metadata doc) "page" (PyStr (lit "N/A")))
               (if 200 <? len (page_content doc)
                then slice_to 200 (page_content doc) ++ lit "..."
                else page_content doc)) docs).
Proof.
  induction docs as [|doc docs IH]; [reflexivity|].
  simpl. unfold main.Source.from_dict at 1.
  rewrite source_of_page, source_of_content, IH. reflexivity.
Qed.

(** C3: in a query result, the [content] of the source made from a
    retrieved document is the document's whole text when the text has at
    most 200 characters, and its first 200 characters followed by ["..."]
    when it has more. *)
Theorem C3_source_content_preview X self q s res s' :
  rag_engine.query X self q s = (Ok res, s') ->
  exists c response,
    heap s !! self ≫= rag_chain = Some c
    /\ invoke X (length (trace s)) c (fsys s) q = Ok response
    /\ Forall2
         (fun doc src =>
            (len (page_content doc) <= 200 ->
             src !! "content"%string = Some (PyStr (page_content doc)))
            /\ (200 < len (page_content doc) ->
                src !! "content"%string =
                Some (PyStr (take 200 (page_content doc) ++ lit "..."))))
         (default [] (r_context response)) (rag_engine.sources res).
Proof.
  rewrite query_run.
  destruct (heap s !! self ≫= rag_chain) as [c|]; [|discriminate].
  destruct (invoke X _ c (fsys s) q) as [response|e] eqn:Hinv; [|discriminate].
  destruct (r_answer response) as [a|]; [|discriminate].
  intros H; inversion H; subst; clear H. simpl.
  exists c, response. repeat split; try assumption.
  apply Forall2_fmap_r, Forall_Forall2_diag, Forall_forall.
  intros doc _. unfold compose. rewrite source_of_content. unfold slice_to.
  split; intros Hlen.
  - destruct (Z.ltb_spec 200 (len (page_content doc))); [lia|reflexivity].
  - destruct (Z.ltb_spec 200 (len (page_content doc))); [reflexivity|lia].
Qed.

Lemma C3_witness :
  exists res s',
    rag_engine.query World.answering 0 (lit "abc") Scenario.loaded = (Ok res, s')
    /\ Forall2
         (fun doc src =>
            (len (page_content doc) <= 200 ->
             src !! "content"%string = Some (PyStr (page_content doc)))
            /\ (200 < len (page_content doc) ->
                src !! "content"%string =
                Some (PyStr (take 200 (page_content doc) ++ lit "..."))))
         [World.doc_long; World.doc_unpaged] (rag_engine.sources res).
Proof.
  eexists. eexists. split; [reflexivity|].
  destruct (C3_source_content_preview World.answering 0 (lit "abc")
              Scenario.loaded _ _ eq_refl) as (c & response & _ & Hinv & HF).
  inversion Hinv; subst. exact HF.
Defined.

(** C9: a retrieved document whose metadata has no ["page"] key does not
    make the query fail: whenever the chain answers, [query] returns, every
    source has a ["page"] entry, that entry is the string ["N/A"] for a
    document without a page and the document's page otherwise, and the
    endpoint's conversion to [Source] models succeeds. *)
Theorem C9_missing_page_defaults X self q s c response a :
  heap s !! self ≫= rag_chain = Some c ->
  invoke X (length (trace s)) c (fsys s) q = Ok response ->
  r_answer response = Some a ->
  exists res,
    rag_engine.query X self q s = (Ok res, after_invoke X c q s)
    /\ Forall2
         (fun doc src =>
            is_Some (src !! "page"%string)
            /\ (metadata doc !! "page"%string = None ->
                src !! "page"%string = Some (PyStr (lit "N/A")))
            /\ (forall v, metadata doc !! "page"%string = Some v ->
                          src !! "page"%string = Some v))
         (default [] (r_context response)) (rag_engine.sources res)
    /\ is_ok (main.comprehension main.Source.from_dict (rag_engine.sources res)) = true.
Proof.
  intros Hc Hinv Ha. rewrite query_run, Hc, Hinv, Ha.
  eexists. split; [reflexivity|]. simpl. split.
  - apply Forall2_fmap_r, Forall_Forall2_diag, Forall_forall.
    intros doc _. unfold compose. rewrite source_of_page. unfold dict_get.
    split; [eauto|]. split.
    + intros ->. reflexivity.
    + intros v ->. reflexivity.
  - rewrite comprehension_sources. reflexivity.
Qed.

Lemma C9_witness :
  exists res,
    rag_engine.query World.answering 0 (lit "abc") Scenario.loaded
    = (Ok res,
       after_invoke World.answering
         (mkRagChain (VectorStoreHandle 0) 3 (Some (LLMHandle 0))) (lit "abc")
         Scenario.loaded)
    /\ Forall2
         (fun doc src =>
            is_Some (src !! "page"%string)
            /\ (metadata doc !! "page"%string = None ->
                src !! "page"%string = Some (PyStr (lit "N/A")))
            /\ (forall v, metadata doc !! "page"%string = Some v ->
                          src !! "page"%string = Some v))
         [World.doc_long; World.doc_unpaged] (rag_engine.sources res)
    /\ is_ok (main.comprehension main.Source.from_dict (rag_engine.sources res)) = true.
Proof.
  exact (C9_missing_page_defaults World.answering 0 (lit "abc") Scenario.loaded
           (mkRagChain (VectorStoreHandle 0) 3 (Some (LLMHandle 0)))
           (mkResponse (Some [World.doc_long; World.doc_unpaged])
              (Some (lit "Articulo 86.")))
           (lit "Articulo 86.") eq_refl eq_refl eq_refl).
Defined.

(** The process [query] leaves behind. *)
Lemma query_state X self q s :
  (rag_engine.query X self q s).2 =
  match heap s !! self ≫= rag_chain with
  | None => s
  | Some c => after_invoke X c q s
  end.
Proof.
  rewrite query_run.
  destruct (heap s !! self ≫= rag_chain) as [c|]; [|reflexivity].
  destruct (invoke X _ c (fsys s) q) as [response|e];
    [destruct (r_answer response)|]; reflexivity.
Qed.

(** C6 (amended): [query] assigns nothing and does no file operation of
    its own.  Whether it returns or raises, the object heap (hence the
    engine's [llm], [embeddings], [vectorstore] and [rag_chain]), the global
    [_rag_instance] and the PDF are what they were, and the only call it
    can make is the one [invoke] of the chain it found.  The vectorstore
    directory is afterwards what that [invoke] left: untouched when no
    chain is found, otherwise up to the library. *)
Theorem C6_query_keeps_engine X self q s :
  heap (rag_engine.query X self q s).2 = heap s
  /\ heap (rag_engine.query X self q s).2 !! self = heap s !! self
  /\ _rag_instance (rag_engine.query X self q s).2 = _rag_instance s
  /\ pdf_file (fsys (rag_engine.query X self q s).2) = pdf_file (fsys s)
  /\ ((heap s !! self ≫= rag_chain = None
       /\ (rag_engine.query X self q s).2 = s)
      \/ exists c,
           heap s !! self ≫= rag_chain = Some c
           /\ new_events s (rag_engine.query X self q s).2 = [EvInvoke c q]
           /\ vectorstore_dir (fsys (rag_engine.query X self q s).2)
              = invoke_directory X (length (trace s)) c (fsys s) q).
Proof.
  rewrite query_state.
  destruct (heap s !! self ≫= rag_chain) as [c|].
  - do 4 (split; [reflexivity|]). right. exists c.
    split; [reflexivity|]. split; [apply after_invoke_events|reflexivity].
  - do 4 (split; [reflexivity|]). left. split; reflexivity.
Qed.

(** C6 as stated fails on the files: after a rebuild that emptied the
    directory, a query through a store that makes its catalog again leaves
    [chroma.sqlite3] in the directory. *)
Lemma C6_counterexample :
  ~ Stated.query_leaves_index World2.chroma_like 0 World2.after_failed_rebuild.
Proof.
  intros H. specialize (H (lit "abc")). vm_compute in H. discriminate.
Qed.

(** C5: when [PDF_PATH] does not exist, [_create_vectorstore] raises
    [FileNotFoundError] straight after the existence test: the test is the
    only call made, so no page is loaded, no chunk is produced and nothing
    is embedded; the engine and the files are untouched. *)
Theorem C5_missing_pdf_fails_first X self s :
  path_exists (fsys s) PDF_PATH = false ->
  rag_engine._create_vectorstore X self s =
  (Raise (FileNotFoundError (rag_engine.pdf_not_found_msg X)),
   log (EvExists PDF_PATH false) s).
Proof.
  intros Hpdf. unfold rag_engine._create_vectorstore, bind, exists_.
  rewrite Hpdf. reflexivity.
Qed.

Lemma C5_witness :
  path_exists (fsys (World.boot World.nothing)) PDF_PATH = false
  /\ rag_engine._create_vectorstore World.answering 0 (World.boot World.nothing) =
     (Raise (FileNotFoundError (rag_engine.pdf_not_found_msg World.answering)),
      mkProcess World.nothing [] None [EvExists PDF_PATH false]).
Proof.
  split; [reflexivity|].
  exact (C5_missing_pdf_fails_first World.answering 0 (World.boot World.nothing) eq_refl).
Defined.

(** C10: [health_check] always returns a response.  When [get_rag_engine]
    returns an engine, the status is ["healthy"] and [vectorstore_ready]
    tells whether that engine's [vectorstore] is not [None]; when
    [get_rag_engine] raises, the status is ["unhealthy"] and
    [vectorstore_ready] is false. *)
Theorem C10_health_check_total X s :
  exists resp s',
    main.health_check X s = (Ok resp, s')
    /\ ((exists engine,
           rag_engine.get_rag_engine X s = (Ok engine, s')
           /\ main.HealthResponse.status resp = lit "healthy"
           /\ (main.HealthResponse.vectorstore_ready resp = true
               <-> is_Some (heap s' !! engine ≫= vectorstore)))
        \/ (exists e,
              rag_engine.get_rag_engine X s = (Raise e, s')
              /\ main.HealthResponse.status resp = lit "unhealthy"
              /\ main.HealthResponse.vectorstore_ready resp = false)).
Proof.
  unfold main.health_check, try_except, bind.
  destruct (rag_engine.get_rag_engine X s) as [[engine|e] s1].
  - eexists. exists s1. split; [reflexivity|]. left. exists engine.
    split; [reflexivity|]. split; [reflexivity|]. simpl.
    apply bool_decide_eq_true.
  - eexists. exists s1. split; [reflexivity|]. right. exists e. auto.
Qed.

(** ** Building and loading the index *)

Lemma load_vectorstore_run X self s :
  rag_engine._load_vectorstore X self s =
  match Chroma X (length (trace s)) (vectorstore_dir (fsys s))
          (heap s !! self ≫= embeddings) with
  | Ok vs =>
      (Ok tt, with_heap (alter (set_vectorstore vs) self (heap s)) (log EvChroma s))
  | Raise e => (Raise e, log EvChroma s)
  end.
Proof.
  unfold rag_engine._load_vectorstore, bind, getattr, call, setattr.
  destruct (Chroma X _ _ _); reflexivity.
Qed.

Lemma create_rag_chain_run X self s :
  rag_engine._create_rag_chain X self s =
  match heap s !! self ≫= vectorstore with
  | None =>
      (Raise (AttributeError
                (lit "'NoneType' object has no attribute 'as_retriever'")), s)
  | Some v =>
      match chain_built X (length (trace s)) v (heap s !! self ≫= llm) with
      | Raise e => (Raise e, s)
      | Ok _ =>
          (Ok tt,
           with_heap
             (alter (set_rag_chain
                       (mkRagChain v config.RETRIEVER_K (heap s !! self ≫= llm)))
                self (heap s)) s)
      end
  end.
Proof.
  unfold rag_engine._create_rag_chain, chain_built, bind, getattr, setattr,
    construct, raise.
  destruct (heap s !! self ≫= vectorstore) as [v|]; [|reflexivity].
  destruct (as_retriever X _ v _); [|reflexivity].
  destruct (from_template X _); [|reflexivity].
  destruct (create_stuff_documents_chain X _ _); [|reflexivity].
  destruct (create_retrieval_chain X _ v _ _); reflexivity.
Qed.

(** A successful [_create_vectorstore] ran the whole pipeline: the PDF was
    there, the loader's pages went to the splitter, the splitter's chunks to
    [Chroma.from_documents], and the store it returned is the engine's. *)
Lemma create_vectorstore_ok X self s u s' :
  rag_engine._create_vectorstore X self s = (Ok u, s') ->
  exists t1 t2 t3 docs splits vs d,
    pdf_file (fsys s) = true
    /\ PyPDFLoader_load X t1 = Ok docs
    /\ split_documents X t2 config.CHUNK_SIZE config.CHUNK_OVERLAP docs = Ok splits
    /\ Chroma_from_documents X t3 splits (heap s !! self ≫= embeddings)
         (vectorstore_dir (fsys s)) = (Ok vs, d)
    /\ s' = mkProcess (mkFileSystem true d)
              (alter (set_vectorstore vs) self (heap s)) (_rag_instance s)
              (trace s ++ EvExists PDF_PATH true :: ingestion_calls).
Proof.
  unfold rag_engine._create_vectorstore, rag_engine.from_documents,
    bind, exists_, call, getattr, setattr, raise. simpl.
  destruct (pdf_file (fsys s)) eqn:Hpdf; simpl; [|discriminate].
  destruct (PyPDFLoader_load X _) as [docs|] eqn:Hload; [|discriminate].
  destruct (split_documents X _ _ _ docs) as [splits|] eqn:Hsplit; simpl; [|discriminate].
  destruct (Chroma_from_documents X _ splits _ _) as [[vs|] d] eqn:Hfrom;
    simpl; [|discriminate].
  intros H; inversion H; subst; clear H.
  do 7 eexists. split; [reflexivity|]. split; [exact Hload|].
  split; [exact Hsplit|]. split; [exact Hfrom|].
  unfold with_heap, log, with_fsys, ingestion_calls. simpl.
  rewrite <- !app_assoc, Hpdf. reflexivity.
Qed.

(** A failed [_create_vectorstore] stopped somewhere in the pipeline and
    assigned nothing. *)
Lemma create_vectorstore_raise X self s e s' :
  rag_engine._create_vectorstore X self s = (Raise e, s') ->
  heap s' = heap s
  /\ _rag_instance s' = _rag_instance s
  /\ pdf_file (fsys s') = pdf_file (fsys s)
  /\ (pdf_file (fsys s) = false -> fsys s' = fsys s)
  /\ exists tail,
       trace s' = trace s ++ EvExists PDF_PATH (pdf_file (fsys s)) :: tail
       /\ tail `prefix_of` ingestion_calls
       /\ (pdf_file (fsys s) = false -> tail = []).
Proof.
  unfold rag_engine._create_vectorstore, rag_engine.from_documents,
    bind, exists_, call, getattr, setattr, raise. simpl.
  destruct (pdf_file (fsys s)) eqn:Hpdf; simpl.
  - destruct (PyPDFLoader_load X _) as [docs|].
    + destruct (split_documents X _ _ _ docs) as [splits|]; simpl.
      * destruct (Chroma_from_documents X _ splits _ _) as [[vs|] d];
          simpl; [discriminate|].
        intros H; inversion H; subst; clear H. simpl. rewrite ?Hpdf.
        do 3 (split; [reflexivity|]). split; [discriminate|].
        exists ingestion_calls. rewrite <- !app_assoc.
        split; [reflexivity|]. split; [reflexivity|discriminate].
      * intros H; inversion H; subst; clear H. simpl. rewrite ?Hpdf.
        do 3 (split; [reflexivity|]). split; [discriminate|].
        exists [EvPyPDFLoader_load; EvSplit_documents]. rewrite <- !app_assoc.
        split; [reflexivity|]. split; [|discriminate].
        exists [EvChroma_from_documents]. reflexivity.
    + intros H; inversion H; subst; clear H. simpl. rewrite ?Hpdf.
      do 3 (split; [reflexivity|]). split; [discriminate|].
      exists [EvPyPDFLoader_load]. rewrite <- !app_assoc.
      split; [reflexivity|]. split; [|discriminate].
      exists [EvSplit_documents; EvChroma_from_documents]. reflexivity.
  - intros H; inversion H; subst; clear H. simpl. rewrite ?Hpdf.
    do 4 (split; [reflexivity|]).
    exists []. split; [reflexivity|]. split; [apply prefix_nil|reflexivity].
Qed.

(** ** Construction *)

Lemma lookup_new (h : list RAGEngine) o : (h ++ [o]) !! length h = Some o.
Proof. induction h; [reflexivity|assumption]. Qed.

Lemma alter_new (f : RAGEngine -> RAGEngine) h o :
  alter f (length h) (h ++ [o]) = h ++ [f o].
Proof. induction h as [|o' h IH]; [reflexivity|]. simpl. f_equal. exact IH. Qed.

(** [RAGEngine()] once both model clients are constructed: the new object
    holds them when the index is looked for. *)
Lemma RAGEngine_new_run X s l e :
  ChatGoogleGenerativeAI X (length (trace s)) config.LLM_MODEL
    config.LLM_TEMPERATURE = Ok l ->
  GoogleGenerativeAIEmbeddings X (length (trace s) + 1)%nat
    config.EMBEDDING_MODEL = Ok e ->
  rag_engine.RAGEngine_new X s =
  let self := length (heap s) in
  let s3 :=
    mkProcess (fsys s) (heap s ++ [mkRAGEngine (Some l) (Some e) None None])
      (_rag_instance s)
      (trace s ++ [EvChatGoogleGenerativeAI; EvGoogleGenerativeAIEmbeddings;
                   EvExists CATALOG (path_exists (fsys s) CATALOG)]) in
  match (if path_exists (fsys s) CATALOG
         then rag_engine._load_vectorstore X self s3
         else rag_engine._create_vectorstore X self s3) with
  | (Raise ex, s4) => (Raise ex, s4)
  | (Ok _, s4) =>
      match rag_engine._create_rag_chain X self s4 with
      | (Ok _, s5) => (Ok self, s5)
      | (Raise ex, s5) => (Raise ex, s5)
      end
  end.
Proof.
  intros Hllm Hemb.
  unfold rag_engine.RAGEngine_new, rag_engine._initialize,
    rag_engine._vectorstore_exists.
  unfold bind at 1. unfold alloc at 1.
  unfold bind at 1. unfold bind at 1. unfold call at 1.
  cbn [trace with_heap]. rewrite Hllm.
  unfold bind at 1. unfold setattr at 1.
  unfold bind at 1. unfold call at 1.
  cbn [trace with_heap log]. rewrite length_app. cbn [length]. rewrite Hemb.
  unfold bind at 1. unfold setattr at 1.
  unfold bind at 1. unfold exists_ at 1. cbn [fsys heap with_heap log].
  rewrite !alter_new. cbn [set_llm set_embeddings llm embeddings vectorstore rag_chain].
  unfold with_heap, log. cbn [fsys heap _rag_instance trace].
  rewrite <- !app_assoc. cbn [app].
  unfold bind, ret.
  destruct (path_exists (fsys s) CATALOG);
    [ destruct (rag_engine._load_vectorstore X _ _) as [[u|ex] s4]
    | destruct (rag_engine._create_vectorstore X _ _) as [[u|ex] s4] ];
    try reflexivity;
    destruct (rag_engine._create_rag_chain X _ s4) as [[u'|ex] s5]; reflexivity.
Qed.




(** ** What a method leaves alone *)

Section Frame.
Context {A B : Type}.

Lemma keeps_global_bind (m : Py A) (k : A -> Py B) :
  keeps_global m -> (forall a, keeps_global (k a)) -> keeps_global (bind m k).
Proof.
  intros Hm Hk s. unfold bind. specialize (Hm s).
  destruct (m s) as [[a|e] s1]; simpl in *; [|assumption].
  rewrite (Hk a s1). assumption.
Qed.

Lemma allocates_nothing_bind (m : Py A) (k : A -> Py B) :
  allocates_nothing m -> (forall a, allocates_nothing (k a)) ->
  allocates_nothing (bind m k).
Proof.
  intros Hm Hk s. unfold bind. specialize (Hm s).
  destruct (m s) as [[a|e] s1]; simpl in *; [|assumption].
  rewrite (Hk a s1). assumption.
Qed.

Lemma keeps_global_try (m : Py A) (h : Exn -> Py A) :
  keeps_global m -> (forall e, keeps_global (h e)) -> keeps_global (try_except m h).
Proof.
  intros Hm Hh s. unfold try_except. specialize (Hm s).
  destruct (m s) as [[a|e] s1]; simpl in *; [assumption|].
  rewrite (Hh e s1). assumption.
Qed.

Lemma allocates_nothing_try (m : Py A) (h : Exn -> Py A) :
  allocates_nothing m -> (forall e, allocates_nothing (h e)) ->
  allocates_nothing (try_except m h).
Proof.
  intros Hm Hh s. unfold try_except. specialize (Hm s).
  destruct (m s) as [[a|e] s1]; simpl in *; [assumption|].
  rewrite (Hh e s1). assumption.
Qed.
End Frame.

(** The primitive steps: unfold and compute. *)
Ltac frame_step :=
  let s := fresh "s" in
  intros s;
  unfold ret, raise, call, construct, exists_, getattr, setattr, alloc,
    main.lift, rmtree_vectorstore_dir, mkdir_vectorstore_dir,
    rag_engine.from_documents;
  repeat case_match; simpl; rewrite ?length_alter; reflexivity.

Lemma keeps_global_ret {A} (a : A) : keeps_global (ret a).
Proof. frame_step. Qed.
Lemma keeps_global_raise {A} e : keeps_global (@raise A e).
Proof. frame_step. Qed.
Lemma keeps_global_call {A} ev (f : nat -> Result A) : keeps_global (call ev f).
Proof. frame_step. Qed.
Lemma keeps_global_construct {A} (f : nat -> Result A) :
  keeps_global (construct f).
Proof. frame_step. Qed.
Lemma keeps_global_call_read {A} ev (f : Process -> nat -> Result A) :
  keeps_global (fun s => call ev (f s) s).
Proof. frame_step. Qed.
Lemma keeps_global_exists p : keeps_global (exists_ p).
Proof. frame_step. Qed.
Lemma keeps_global_getattr {A} (f : RAGEngine -> option A) self :
  keeps_global (getattr f self).
Proof. frame_step. Qed.
Lemma keeps_global_setattr upd self : keeps_global (setattr upd self).
Proof. frame_step. Qed.
Lemma keeps_global_alloc o : keeps_global (alloc o).
Proof. frame_step. Qed.
Lemma keeps_global_rmtree : keeps_global rmtree_vectorstore_dir.
Proof. frame_step. Qed.
Lemma keeps_global_mkdir : keeps_global mkdir_vectorstore_dir.
Proof. frame_step. Qed.
Lemma keeps_global_from_documents X splits emb :
  keeps_global (rag_engine.from_documents X splits emb).
Proof. frame_step. Qed.
Lemma keeps_global_lift {A} (r : Result A) : keeps_global (main.lift r).
Proof. frame_step. Qed.

Lemma allocates_nothing_ret {A} (a : A) : allocates_nothing (ret a).
Proof. frame_step. Qed.
Lemma allocates_nothing_raise {A} e : allocates_nothing (@raise A e).
Proof. frame_step. Qed.
Lemma allocates_nothing_call {A} ev (f : nat -> Result A) :
  allocates_nothing (call ev f).
Proof. frame_step. Qed.
Lemma allocates_nothing_construct {A} (f : nat -> Result A) :
  allocates_nothing (construct f).
Proof. frame_step. Qed.
Lemma allocates_nothing_call_read {A} ev (f : Process -> nat -> Result A) :
  allocates_nothing (fun s => call ev (f s) s).
Proof. frame_step. Qed.
Lemma allocates_nothing_exists p : allocates_nothing (exists_ p).
Proof. frame_step. Qed.
Lemma allocates_nothing_getattr {A} (f : RAGEngine -> option A) self :
  allocates_nothing (getattr f self).
Proof. frame_step. Qed.
Lemma allocates_nothing_setattr upd self : allocates_nothing (setattr upd self).
Proof. frame_step. Qed.
Lemma allocates_nothing_rmtree : allocates_nothing rmtree_vectorstore_dir.
Proof. frame_step. Qed.
Lemma allocates_nothing_mkdir : allocates_nothing mkdir_vectorstore_dir.
Proof. frame_step. Qed.
Lemma allocates_nothing_from_documents X splits emb :
  allocates_nothing (rag_engine.from_documents X splits emb).
Proof. frame_step. Qed.
Lemma allocates_nothing_lift {A} (r : Result A) : allocates_nothing (main.lift r).
Proof. frame_step. Qed.

Create HintDb frame.
#[export] Hint Resolve
  keeps_global_ret keeps_global_raise keeps_global_call keeps_global_exists
  keeps_global_construct allocates_nothing_construct
  keeps_global_getattr keeps_global_setattr keeps_global_alloc
  keeps_global_rmtree keeps_global_mkdir keeps_global_from_documents
  keeps_global_lift
  allocates_nothing_ret allocates_nothing_raise allocates_nothing_call
  allocates_nothing_exists allocates_nothing_getattr allocates_nothing_setattr
  allocates_nothing_rmtree allocates_nothing_mkdir
  allocates_nothing_from_documents allocates_nothing_lift : frame.

(** A composite method: split it at every [bind], [try] and branch. *)
Ltac frame :=
  repeat first
    [ solve [auto with frame]
    | apply keeps_global_call_read | apply allocates_nothing_call_read
    | apply keeps_global_bind | apply allocates_nothing_bind
    | apply keeps_global_try | apply allocates_nothing_try
    | progress intros
    | match goal with
      | |- keeps_global (if ?b then _ else _) => destruct b
      | |- allocates_nothing (if ?b then _ else _) => destruct b
      | |- keeps_global (match ?o with Some _ => _ | None => _ end) => destruct o
      | |- allocates_nothing (match ?o with Some _ => _ | None => _ end) => destruct o
      end
    ].

Lemma keeps_global_create_vectorstore X self :
  keeps_global (rag_engine._create_vectorstore X self).
Proof. unfold rag_engine._create_vectorstore. frame. Qed.
Lemma allocates_nothing_create_vectorstore X self :
  allocates_nothing (rag_engine._create_vectorstore X self).
Proof. unfold rag_engine._create_vectorstore. frame. Qed.

Lemma keeps_global_load_vectorstore X self :
  keeps_global (rag_engine._load_vectorstore X self).
Proof.
  unfold rag_engine._load_vectorstore. frame.
Qed.
Lemma allocates_nothing_load_vectorstore X self :
  allocates_nothing (rag_engine._load_vectorstore X self).
Proof.
  unfold rag_engine._load_vectorstore. frame.
Qed.

Lemma keeps_global_create_rag_chain X self :
  keeps_global (rag_engine._create_rag_chain X self).
Proof. unfold rag_engine._create_rag_chain. frame. Qed.
Lemma allocates_nothing_create_rag_chain X self :
  allocates_nothing (rag_engine._create_rag_chain X self).
Proof. unfold rag_engine._create_rag_chain. frame. Qed.

#[export] Hint Resolve
  keeps_global_create_vectorstore allocates_nothing_create_vectorstore
  keeps_global_load_vectorstore allocates_nothing_load_vectorstore
  keeps_global_create_rag_chain allocates_nothing_create_rag_chain : frame.

Lemma keeps_global_initialize X self : keeps_global (rag_engine._initialize X self).
Proof. unfold rag_engine._initialize, rag_engine._vectorstore_exists. frame. Qed.

Lemma allocates_nothing_initialize X self :
  allocates_nothing (rag_engine._initialize X self).
Proof. unfold rag_engine._initialize, rag_engine._vectorstore_exists. frame. Qed.

Lemma keeps_global_rebuild X self :
  keeps_global (rag_engine.rebuild_vectorstore X self).
Proof. unfold rag_engine.rebuild_vectorstore. frame. Qed.
Lemma allocates_nothing_rebuild X self :
  allocates_nothing (rag_engine.rebuild_vectorstore X self).
Proof. unfold rag_engine.rebuild_vectorstore. frame. Qed.

Lemma keeps_global_query X self q : keeps_global (rag_engine.query X self q).
Proof. intros s. rewrite query_run. repeat case_match; reflexivity. Qed.
Lemma allocates_nothing_query X self q :
  allocates_nothing (rag_engine.query X self q).
Proof. intros s. rewrite query_run. repeat case_match; reflexivity. Qed.

#[export] Hint Resolve
  keeps_global_initialize allocates_nothing_initialize
  keeps_global_rebuild allocates_nothing_rebuild
  keeps_global_query allocates_nothing_query : frame.

(** [RAGEngine()] allocates exactly one object and does not touch the
    global: the caller binds it. *)
Lemma RAGEngine_new_frame X s :
  _rag_instance (rag_engine.RAGEngine_new X s).2 = _rag_instance s
  /\ length (heap (rag_engine.RAGEngine_new X s).2) = S (length (heap s)).
Proof.
  split.
  - revert s. change (keeps_global (rag_engine.RAGEngine_new X)).
    unfold rag_engine.RAGEngine_new. frame.
  - unfold rag_engine.RAGEngine_new. unfold bind at 1. unfold alloc at 1.
    match goal with
    | |- context [bind ?m ?k ?s1] =>
        assert (H : allocates_nothing (bind m k)) by frame;
        specialize (H s1); destruct (bind m k s1) as [[u|e] s2]
    end; simpl in *; rewrite H, length_app; simpl; lia.
Qed.

(** ** The singleton *)

Lemma get_rag_engine_cached X s e :
  _rag_instance s = Some e -> rag_engine.get_rag_engine X s = (Ok e, s).
Proof. intros H. unfold rag_engine.get_rag_engine, bind. now rewrite H. Qed.

(** With no instance yet, [get_rag_engine] is [RAGEngine()] followed, on
    success only, by the assignment to the global. *)
Lemma get_rag_engine_fresh X s :
  _rag_instance s = None ->
  rag_engine.get_rag_engine X s =
  match rag_engine.RAGEngine_new X s with
  | (Ok e, s1) => (Ok e, with_instance (Some e) s1)
  | (Raise ex, s1) => (Raise ex, s1)
  end.
Proof.
  intros H. unfold rag_engine.get_rag_engine. unfold bind at 1. rewrite H.
  unfold bind, ret. destruct (rag_engine.RAGEngine_new X s) as [[e|ex] s1]; reflexivity.
Qed.

Lemma get_rag_engine_ok X s e s' :
  rag_engine.get_rag_engine X s = (Ok e, s') -> _rag_instance s' = Some e.
Proof.
  destruct (_rag_instance s) as [e0|] eqn:Hinst.
  - rewrite (get_rag_engine_cached X s e0 Hinst). intros H; inversion H; subst.
    assumption.
  - rewrite (get_rag_engine_fresh X s Hinst).
    destruct (rag_engine.RAGEngine_new X s) as [[e1|ex] s1]; intros H;
      inversion H; subst. reflexivity.
Qed.

Lemma get_rag_engine_raise X s ex s' :
  rag_engine.get_rag_engine X s = (Raise ex, s') ->
  _rag_instance s = None /\ _rag_instance s' = None
  /\ length (heap s') = S (length (heap s)).
Proof.
  destruct (_rag_instance s) as [e0|] eqn:Hinst.
  - rewrite (get_rag_engine_cached X s e0 Hinst). discriminate.
  - rewrite (get_rag_engine_fresh X s Hinst).
    destruct (RAGEngine_new_frame X s) as [Hg Hh].
    destruct (rag_engine.RAGEngine_new X s) as [[e1|ex1] s1]; intros H;
      inversion H; subst. simpl in *. rewrite Hg. auto.
Qed.

(** Once the global is bound, no request rebinds it or constructs. *)
Lemma serve_keeps_engine X r s e :
  _rag_instance s = Some e ->
  _rag_instance (main.serve X r s).2 = Some e
  /\ length (heap (main.serve X r s).2) = length (heap s).
Proof.
  intros Hinst. destruct (main.serve X r s) as [resp s1] eqn:Hs.
  cbn [snd]. destruct r as [|q|]; simpl in Hs.
  - unfold main.respond, main.health_check, try_except in Hs.
    unfold bind at 1 in Hs.
    rewrite (get_rag_engine_cached X s e Hinst) in Hs.
    unfold bind, getattr, ret in Hs. inversion Hs; subst. auto.
  - destruct (main.QueryRequest.validate q) as [request|];
      [|inversion Hs; subst; auto].
    unfold main.respond, main.query_constitution, try_except,
      main.query_constitution_body in Hs.
    unfold bind at 1 in Hs.
    rewrite (get_rag_engine_cached X s e Hinst) in Hs.
    match type of Hs with
    | context [bind ?m ?k s] =>
        assert (Hg : keeps_global (bind m k)) by frame;
        assert (Hh : allocates_nothing (bind m k)) by frame;
        specialize (Hg s); specialize (Hh s);
        destruct (bind m k s) as [[b|ex] s2]
    end; simpl in *; inversion Hs; subst; rewrite Hg, Hh; auto.
  - unfold main.respond, main.rebuild_vectorstore, try_except,
      main.rebuild_vectorstore_body in Hs.
    unfold bind at 1 in Hs.
    rewrite (get_rag_engine_cached X s e Hinst) in Hs.
    match type of Hs with
    | context [bind ?m ?k s] =>
        assert (Hg : keeps_global (bind m k)) by frame;
        assert (Hh : allocates_nothing (bind m k)) by frame;
        specialize (Hg s); specialize (Hh s);
        destruct (bind m k s) as [[b|ex] s2]
    end; simpl in *; inversion Hs; subst; rewrite Hg, Hh; auto.
Qed.

Lemma serve_all_keeps_engine X rs s e :
  _rag_instance s = Some e ->
  _rag_instance (main.serve_all X rs s) = Some e
  /\ length (heap (main.serve_all X rs s)) = length (heap s).
Proof.
  revert s. induction rs as [|r rs IH]; intros s Hinst; [auto|].
  simpl. destruct (serve_keeps_engine X r s e Hinst) as [Hg Hh].
  destruct (IH _ Hg) as [Hg' Hh']. rewrite <- Hh. auto.
Qed.

(** C7 (amended): the engine is cached once a construction has succeeded.
    When [get_rag_engine] returns an engine, the global holds it, and after
    any sequence of requests a further call returns that same reference,
    leaves the process as it is (no initialization call, no new object);
    when [get_rag_engine] raises, the global is still [None] although an
    object was allocated, so the next call constructs again. *)
Theorem C7_cached_once_constructed X s :
  (forall e s',
     rag_engine.get_rag_engine X s = (Ok e, s') ->
     _rag_instance s' = Some e
     /\ forall rs,
          rag_engine.get_rag_engine X (main.serve_all X rs s')
          = (Ok e, main.serve_all X rs s')
          /\ length (heap (main.serve_all X rs s')) = length (heap s'))
  /\ (forall ex s',
        rag_engine.get_rag_engine X s = (Raise ex, s') ->
        _rag_instance s' = None
        /\ length (heap s') = S (length (heap s))
        /\ rag_engine.get_rag_engine X s'
           = match rag_engine.RAGEngine_new X s' with
             | (Ok e, s1) => (Ok e, with_instance (Some e) s1)
             | (Raise ex', s1) => (Raise ex', s1)
             end).
Proof.
  split.
  - intros e s' Hrun. apply get_rag_engine_ok in Hrun. split; [assumption|].
    intros rs. destruct (serve_all_keeps_engine X rs s' e Hrun) as [Hg Hh].
    split; [|assumption]. apply get_rag_engine_cached. assumption.
  - intros ex s' Hrun. apply get_rag_engine_raise in Hrun as (_ & Hnone & Hlen).
    split; [assumption|]. split; [assumption|].
    apply get_rag_engine_fresh. assumption.
Qed.

Lemma C7_witness :
  _rag_instance Scenario.loaded = Some 0%nat
  /\ rag_engine.get_rag_engine World.answering
       (main.serve_all World.answering
          [main.GET_health; main.POST_query (lit "abc");
           main.POST_rebuild_vectorstore] Scenario.loaded)
     = (Ok 0%nat,
        main.serve_all World.answering
          [main.GET_health; main.POST_query (lit "abc");
           main.POST_rebuild_vectorstore] Scenario.loaded).
Proof.
  destruct (proj1 (C7_cached_once_constructed World.answering
                     (World.boot World.indexed_with_pdf))
              0%nat Scenario.loaded eq_refl) as [Hinst Hall].
  split; [exact Hinst|].
  exact (proj1 (Hall [main.GET_health; main.POST_query (lit "abc");
                      main.POST_rebuild_vectorstore])).
Defined.

(** C7 as stated fails: with neither an index nor the PDF the first call
    raises, and the second call constructs a second [RAGEngine] and runs
    initialization again. *)
Lemma C7_counterexample :
  ~ Stated.at_most_one_construction World.answering (World.boot World.nothing).
Proof.
  unfold Stated.at_most_one_construction. intros [Hlen _].
  vm_compute in Hlen. lia.
Qed.

Lemma validate_rejects q :
  len q < 3 \/ 500 < len q ->
  exists e, main.QueryRequest.validate q = Raise e.
Proof.
  intros Hlen. unfold main.QueryRequest.validate,
    main.QueryRequest.min_length, main.QueryRequest.max_length.
  destruct (Z.ltb_spec (len q) 3); [eauto|].
  destruct (Z.ltb_spec 500 (len q)); [eauto|lia].
Qed.

Lemma validate_accepts q :
  3 <= len q <= 500 ->
  main.QueryRequest.validate q = Ok (main.QueryRequest.mk q).
Proof.
  intros Hlen. unfold main.QueryRequest.validate,
    main.QueryRequest.min_length, main.QueryRequest.max_length.
  destruct (Z.ltb_spec (len q) 3); [lia|].
  destruct (Z.ltb_spec 500 (len q)); [lia|reflexivity].
Qed.

(** The process a route leaves behind. *)
Lemma serve_state X r s :
  (main.serve X r s).2 =
  match r with
  | main.GET_health => (rag_engine.get_rag_engine X s).2
  | main.POST_query q =>
      match main.QueryRequest.validate q with
      | Raise _ => s
      | Ok request =>
          match rag_engine.get_rag_engine X s with
          | (Ok e, s1) =>
              (rag_engine.query X e (main.QueryRequest.question request) s1).2
          | (Raise _, s1) => s1
          end
      end
  | main.POST_rebuild_vectorstore =>
      match rag_engine.get_rag_engine X s with
      | (Ok e, s1) => (rag_engine.rebuild_vectorstore X e s1).2
      | (Raise _, s1) => s1
      end
  end.
Proof.
  destruct r as [|q|]; cbn [main.serve].
  - unfold main.respond, main.health_check, try_except, bind, getattr, ret.
    destruct (rag_engine.get_rag_engine X s) as [[e|ex] s1]; reflexivity.
  - destruct (main.QueryRequest.validate q) as [request|]; [|reflexivity].
    unfold main.respond, main.query_constitution, try_except,
      main.query_constitution_body, raise. unfold bind at 1.
    destruct (rag_engine.get_rag_engine X s) as [[e|ex] s1]; [|reflexivity].
    unfold bind at 1.
    destruct (rag_engine.query X e (main.QueryRequest.question request) s1)
      as [[res|ex] s2]; [|reflexivity].
    unfold bind, main.lift, ret.
    destruct (main.comprehension main.Source.from_dict (rag_engine.sources res));
      reflexivity.
  - unfold main.respond, main.rebuild_vectorstore, try_except,
      main.rebuild_vectorstore_body, raise. unfold bind at 1.
    destruct (rag_engine.get_rag_engine X s) as [[e|ex] s1]; [|reflexivity].
    unfold bind, ret.
    destruct (rag_engine.rebuild_vectorstore X e s1) as [[u|ex] s2]; reflexivity.
Qed.

(** ** Rebuild *)

(** [rebuild_vectorstore] is the deletion followed by the two steps that
    end [_initialize] on the ingestion path. *)
Lemma rebuild_run X self s :
  rag_engine.rebuild_vectorstore X self s =
  (rag_engine._create_vectorstore X self ;;; rag_engine._create_rag_chain X self)
    (after_delete s).
Proof.
  unfold rag_engine.rebuild_vectorstore, after_delete.
  unfold bind at 1. unfold exists_ at 1. cbn [path_exists].
  unfold bind at 1.
  destruct (vectorstore_dir (fsys s)) as [names|] eqn:Hdir.
  - rewrite bool_decide_eq_true_2 by eauto.
    unfold bind at 1. unfold rmtree_vectorstore_dir at 1.
    cbn [fsys log vectorstore_dir]. rewrite Hdir.
    unfold mkdir_vectorstore_dir. cbn [fsys log with_fsys vectorstore_dir].
    unfold with_fsys, log. cbn [fsys heap _rag_instance trace pdf_file].
    rewrite <- !app_assoc. reflexivity.
  - rewrite bool_decide_eq_false_2 by (intros [? ?]; discriminate).
    reflexivity.
Qed.

Lemma alter_no_object (f : RAGEngine -> RAGEngine) (h : list RAGEngine) (i : nat) :
  h !! i = None -> alter f i h = h.
Proof.
  revert i. induction h as [|o h IH]; intros [|i] Hi; try reflexivity.
  - discriminate.
  - simpl. f_equal. apply IH. exact Hi.
Qed.

Lemma after_delete_frame s :
  heap (after_delete s) = heap s
  /\ _rag_instance (after_delete s) = _rag_instance s
  /\ pdf_file (fsys (after_delete s)) = pdf_file (fsys s)
  /\ (is_Some (vectorstore_dir (fsys s)) ->
      vectorstore_dir (fsys (after_delete s)) = Some []).
Proof.
  unfold after_delete. destruct (vectorstore_dir (fsys s)); simpl;
    repeat split; try reflexivity. intros [? ?]; discriminate.
Qed.

(** A rebuild that raises never assigned [self.rag_chain].  Either
    nothing was assigned at all (ingestion failed, or [self] is no
    object), or ingestion succeeded, [self.vectorstore] is the new store,
    and building the chain failed. *)
Lemma rebuild_raise X self s ex s' :
  rag_engine.rebuild_vectorstore X self s = (Raise ex, s') ->
  _rag_instance s' = _rag_instance s
  /\ (heap s' = heap s
      \/ exists o vs,
           heap s !! self = Some o
           /\ heap s' = alter (set_vectorstore vs) self (heap s))
  /\ (pdf_file (fsys s) = false ->
      ex = FileNotFoundError (rag_engine.pdf_not_found_msg X)
      /\ fsys s' = fsys (after_delete s)
      /\ heap s' = heap s).
Proof.
  rewrite rebuild_run. destruct (after_delete_frame s) as (Hh & Hg & Hpdf & _).
  unfold bind.
  destruct (rag_engine._create_vectorstore X self (after_delete s))
    as [[u|ex1] s1] eqn:Hrun.
  - apply create_vectorstore_ok in Hrun
      as (t1 & t2 & t3 & docs & splits & vs & d & Hp & _ & _ & _ & ->).
    rewrite create_rag_chain_run. cbn [heap].
    rewrite !list_lookup_alter_eq.
    rewrite Hp in Hpdf.
    destruct (heap (after_delete s) !! self) as [o|] eqn:Hobj.
    + cbn [fmap option_fmap option_map mbind option_bind set_vectorstore
             vectorstore llm].
      destruct (chain_built X _ vs (llm o)) as [[]|exc]; [discriminate|].
      intros H; inversion H; subst; clear H. cbn [heap _rag_instance fsys].
      rewrite Hh in *.
      split; [assumption|]. split; [|intros Hno; congruence].
      right. exists o, vs. auto.
    + cbn. intros H; inversion H; subst; clear H. cbn [heap _rag_instance fsys].
      rewrite Hh in *.
      split; [assumption|]. split; [|intros Hno; congruence].
      left. apply alter_no_object. assumption.
  - intros H; inversion H; subst; clear H.
    pose proof Hrun as Hrun'.
    apply create_vectorstore_raise in Hrun as (Hh1 & Hg1 & _ & Hfs & _).
    split; [congruence|]. split; [left; congruence|].
    intros Hno. rewrite <- Hpdf in Hno.
    split; [|split; [auto|congruence]].
    unfold rag_engine._create_vectorstore, bind, exists_ in Hrun'.
    cbn [path_exists] in Hrun'. rewrite Hno in Hrun'. cbn in Hrun'.
    inversion Hrun'. reflexivity.
Qed.

(** What a rebuild that raises leaves of the engine it was called on. *)
Lemma rebuild_raise_engine X self s ex s' :
  rag_engine.rebuild_vectorstore X self s = (Raise ex, s') ->
  heap s' !! self ≫= rag_chain = heap s !! self ≫= rag_chain
  /\ heap s' !! self ≫= llm = heap s !! self ≫= llm
  /\ heap s' !! self ≫= embeddings = heap s !! self ≫= embeddings
  /\ (is_Some (heap s !! self ≫= vectorstore) ->
      is_Some (heap s' !! self ≫= vectorstore)).
Proof.
  intros Hrun. apply rebuild_raise in Hrun as (_ & [->|(o & vs & Hobj & ->)] & _).
  - auto.
  - rewrite list_lookup_alter_eq, Hobj. cbn. eauto.
Qed.

(** C2 (amended): there is no failed state.  When the rebuild of the
    published engine raises, [POST /rebuild-vectorstore] answers 500 with
    the exception's text and the engine stays published with the chain it
    had before (and its clients; its store is the old one, or the new one
    if only the chain could not be built).  [GET /health] still answers
    ["healthy"], with [vectorstore_ready] true if there was a store, and
    the next [query] is not turned away: it is passed to that previous
    chain, and its outcome is the library's.  With the PDF missing, the
    exception is the [FileNotFoundError], nothing was assigned and the
    directory that existed is left empty. *)
Theorem C2_failed_rebuild_is_not_marked X s e ex s' :
  _rag_instance s = Some e ->
  rag_engine.rebuild_vectorstore X e s = (Raise ex, s') ->
  main.serve X main.POST_rebuild_vectorstore s
  = (main.HttpError 500 (lit "Error al reconstruir vectorstore: " ++ str_exn ex), s')
  /\ _rag_instance s' = Some e
  /\ heap s' !! e ≫= rag_chain = heap s !! e ≫= rag_chain
  /\ heap s' !! e ≫= llm = heap s !! e ≫= llm
  /\ heap s' !! e ≫= embeddings = heap s !! e ≫= embeddings
  /\ (is_Some (heap s !! e ≫= vectorstore) ->
      is_Some (heap s' !! e ≫= vectorstore))
  /\ (exists ready,
        main.serve X main.GET_health s'
        = (main.Http200_health
             (main.HealthResponse.mk (lit "healthy")
                (lit "API funcionando correctamente") ready), s')
        /\ (is_Some (heap s !! e ≫= vectorstore) -> ready = true))
  /\ (forall q c,
        heap s !! e ≫= rag_chain = Some c ->
        new_events s' (rag_engine.query X e q s').2 = [EvInvoke c q]
        /\ (3 <= len q <= 500 ->
            new_events s' (main.serve X (main.POST_query q) s').2 = [EvInvoke c q])
        /\ (rag_engine.query X e q s').1
           = match invoke X (length (trace s')) c (fsys s') q with
             | Ok response =>
                 match r_answer response with
                 | Some a =>
                     Ok (rag_engine.mkQueryResult a
                           (map rag_engine.source_of (default [] (r_context response)))
                           q)
                 | None => Raise (KeyError (lit "'answer'"))
                 end
             | Raise e => Raise e
             end)
  /\ (pdf_file (fsys s) = false ->
      ex = FileNotFoundError (rag_engine.pdf_not_found_msg X)
      /\ heap s' = heap s
      /\ (is_Some (vectorstore_dir (fsys s)) -> vectorstore_dir (fsys s') = Some [])).
Proof.
  intros Hinst Hrun.
  destruct (rebuild_raise_engine X e s ex s' Hrun) as (Hc & Hl & Hem & Hv).
  destruct (rebuild_raise X e s ex s' Hrun) as (Hg & _ & Hno).
  assert (Hinst' : _rag_instance s' = Some e) by congruence.
  split.
  { cbn [main.serve]. unfold main.respond, main.rebuild_vectorstore, try_except,
      main.rebuild_vectorstore_body, raise. unfold bind at 1.
    rewrite (get_rag_engine_cached X s e Hinst). unfold bind. rewrite Hrun.
    reflexivity. }
  split; [assumption|]. do 4 (split; [assumption|]). split.
  { cbn [main.serve]. unfold main.respond, main.health_check, try_except.
    unfold bind at 1. rewrite (get_rag_engine_cached X s' e Hinst').
    unfold bind, getattr, ret. eexists. split; [reflexivity|].
    intros Hsome. apply bool_decide_eq_true. auto. }
  split.
  { intros q c Hchain. rewrite <- Hc in Hchain. split; [|split].
    - rewrite query_state, Hchain. apply after_invoke_events.
    - intros Hlen. rewrite serve_state, (validate_accepts q Hlen).
      rewrite (get_rag_engine_cached X s' e Hinst').
      cbn [main.QueryRequest.question].
      rewrite query_state, Hchain. apply after_invoke_events.
    - rewrite query_run, Hchain.
      destruct (invoke X _ c (fsys s') q) as [response|exc];
        [destruct (r_answer response)|]; reflexivity. }
  intros Hpdf. destruct (Hno Hpdf) as (-> & Hfs & Hheap).
  split; [reflexivity|]. split; [assumption|].
  intros Hdir. rewrite Hfs. apply after_delete_frame. assumption.
Qed.

Lemma C2_witness :
  main.serve World2.chroma_like main.POST_rebuild_vectorstore
    World2.loaded_without_pdf
  = (main.HttpError 500
       (lit "Error al reconstruir vectorstore: "
        ++ str_exn (FileNotFoundError
                      (rag_engine.pdf_not_found_msg World2.chroma_like))),
     World2.after_failed_rebuild)
  /\ (exists ready,
        main.serve World2.chroma_like main.GET_health World2.after_failed_rebuild
        = (main.Http200_health
             (main.HealthResponse.mk (lit "healthy")
                (lit "API funcionando correctamente") ready),
           World2.after_failed_rebuild)
        /\ ready = true)
  /\ new_events World2.after_failed_rebuild
       (main.serve World2.chroma_like (main.POST_query (lit "abc"))
          World2.after_failed_rebuild).2
     = [EvInvoke (mkRagChain (VectorStoreHandle 0) 3 (Some (LLMHandle 0)))
          (lit "abc")].
Proof.
  assert (Hrun : rag_engine.rebuild_vectorstore World2.chroma_like 0
                   World2.loaded_without_pdf
                 = (Raise (FileNotFoundError
                             (rag_engine.pdf_not_found_msg World2.chroma_like)),
                    World2.after_failed_rebuild))
    by (vm_compute; reflexivity).
  destruct (C2_failed_rebuild_is_not_marked World2.chroma_like
              World2.loaded_without_pdf 0%nat _ _ eq_refl Hrun)
    as (Hroute & _ & _ & _ & _ & _ & (ready & Hhealth & Hready) & Hquery & _).
  split; [exact Hroute|]. split.
  - exists ready. split; [exact Hhealth|]. apply Hready. eexists. reflexivity.
  - refine (proj1 (proj2 (Hquery (lit "abc") _ eq_refl)) _).
    split; vm_compute; discriminate.
Defined.

(** C2 as stated fails: the engine was loaded from an index whose PDF is
    gone; the rebuild empties the directory and is answered 500, after
    which [GET /health] still answers ["healthy"] and a query is still
    passed to the chain over the deleted index. *)
Lemma C2_counterexample :
  ~ Stated.failed_rebuild_is_marked World2.chroma_like World2.loaded_without_pdf.
Proof.
  intros H.
  assert (Hrebuild :
            main.serve World2.chroma_like main.POST_rebuild_vectorstore
              World2.loaded_without_pdf
            = (main.HttpError 500
                 (lit "Error al reconstruir vectorstore: "
                  ++ rag_engine.pdf_not_found_msg World2.chroma_like),
               World2.after_failed_rebuild))
    by (vm_compute; reflexivity).
  destruct (H _ _ Hrebuild) as [(h & s2 & Hh & Hne)|Hq].
  - apply Hne. vm_compute in Hh. inversion Hh. reflexivity.
  - specialize (Hq (lit "abc")). vm_compute in Hq. discriminate.
Qed.

(** ** The routes *)

(** C4 (amended): the length check belongs to the request model of
    [POST /query].  A question shorter than 3 or longer than 500
    characters is answered 422 there and the handler does not run: the
    process, its trace included, is unchanged, so nothing was retrieved or
    generated.  [RAGEngine.query] checks nothing: given the same question
    it calls the chain. *)
Theorem C4_length_checked_at_the_route X q s :
  len q < 3 \/ 500 < len q ->
  main.serve X (main.POST_query q) s = (main.Http422, s)
  /\ forall self c,
       heap s !! self ≫= rag_chain = Some c ->
       new_events s (rag_engine.query X self q s).2 = [EvInvoke c q].
Proof.
  intros Hlen. split.
  - destruct (validate_rejects q Hlen) as [e He]. simpl. rewrite He. reflexivity.
  - intros self c Hc. rewrite query_run, Hc. unfold new_events.
    destruct (invoke X _ c (fsys s) q) as [response|e];
      [destruct (r_answer response)|];
      cbn [snd log trace]; apply drop_app_length.
Qed.

Lemma C4_witness :
  main.serve World.answering (main.POST_query (lit "ab")) Scenario.loaded
  = (main.Http422, Scenario.loaded)
  /\ new_events Scenario.loaded
       (rag_engine.query World.answering 0 (lit "ab") Scenario.loaded).2
     = [EvInvoke (mkRagChain (VectorStoreHandle 0) 3 (Some (LLMHandle 0)))
          (lit "ab")].
Proof.
  destruct (C4_length_checked_at_the_route World.answering (lit "ab")
              Scenario.loaded (or_introl eq_refl)) as [Hroute Hquery].
  split; [exact Hroute|]. exact (Hquery 0%nat _ eq_refl).
Defined.

(** C4 as stated fails for the orchestrator's own [query]: a question of
    two characters is passed to the chain and answered. *)
Lemma C4_counterexample :
  ~ Stated.query_validates World.answering 0 Scenario.loaded.
Proof.
  intros H. destruct (H (lit "ab")) as [e He].
  - right. left. reflexivity.
  - vm_compute in He. discriminate.
Qed.

(** [health_check] never raises. *)
Lemma health_check_returns X s :
  exists resp s', main.health_check X s = (Ok resp, s').
Proof.
  unfold main.health_check, try_except, bind.
  destruct (rag_engine.get_rag_engine X s) as [[engine|e] s1]; eauto.
Qed.

(** What leaves a [try ... except Exception] that re-raises as
    [HTTPException(500, prefix + str(e))]. *)
Lemma respond_try_500 {A} (wrap : A -> main.HttpResponse) (body : Py A)
    (prefix : pystr) s c d s' :
  (forall a, wrap a <> main.HttpError c d) ->
  main.respond wrap
    (try_except body (fun e => raise (HTTPException 500 (prefix ++ str_exn e)))) s
  = (main.HttpError c d, s') ->
  c = 500 /\ exists ex, body s = (Raise ex, s') /\ d = prefix ++ str_exn ex.
Proof.
  intros Hwrap. unfold main.respond, try_except, raise.
  destruct (body s) as [[a|ex] s1]; intros H; inversion H; subst.
  - exfalso. eapply Hwrap. eassumption.
  - eauto.
Qed.

(** What a [try ... except Exception] that re-raises as
    [HTTPException(500, prefix + str(e))] answers when its body raises. *)
Lemma respond_raised_500 {A} (wrap : A -> main.HttpResponse) (body : Py A)
    (prefix : pystr) s ex s' :
  body s = (Raise ex, s') ->
  main.respond wrap
    (try_except body (fun e => raise (HTTPException 500 (prefix ++ str_exn e)))) s
  = (main.HttpError 500 (prefix ++ str_exn ex), s').
Proof.
  intros Hbody. unfold main.respond, try_except, raise. rewrite Hbody. reflexivity.
Qed.

(** C8 (amended): an exception raised while a query or a rebuild is
    handled becomes a 500 whose detail is the route's fixed prefix followed
    by [str] of that exception.  This holds for an exception raised by the
    construction of the engine, by [RAGEngine.query] and by
    [RAGEngine.rebuild_vectorstore], and for anything else raised in the
    body of the handlers; and every error answer of the three routes
    arises this way.  The detail tells the route and carries the
    exception's own text, nothing else. *)
Theorem C8_raised_errors_become_500 X s :
  (forall q ex s',
     3 <= len q <= 500 ->
     main.query_constitution_body X (main.QueryRequest.mk q) s = (Raise ex, s') ->
     main.serve X (main.POST_query q) s
     = (main.HttpError 500 (lit "Error al procesar consulta: " ++ str_exn ex), s'))
  /\ (forall ex s',
        main.rebuild_vectorstore_body X s = (Raise ex, s') ->
        main.serve X main.POST_rebuild_vectorstore s
        = (main.HttpError 500
             (lit "Error al reconstruir vectorstore: " ++ str_exn ex), s'))
  /\ (forall ex s',
        rag_engine.get_rag_engine X s = (Raise ex, s') ->
        (forall q,
           3 <= len q <= 500 ->
           main.serve X (main.POST_query q) s
           = (main.HttpError 500
                (lit "Error al procesar consulta: " ++ str_exn ex), s'))
        /\ main.serve X main.POST_rebuild_vectorstore s
           = (main.HttpError 500
                (lit "Error al reconstruir vectorstore: " ++ str_exn ex), s'))
  /\ (forall e q ex s',
        _rag_instance s = Some e ->
        3 <= len q <= 500 ->
        rag_engine.query X e q s = (Raise ex, s') ->
        main.serve X (main.POST_query q) s
        = (main.HttpError 500 (lit "Error al procesar consulta: " ++ str_exn ex), s'))
  /\ (forall e ex s',
        _rag_instance s = Some e ->
        rag_engine.rebuild_vectorstore X e s = (Raise ex, s') ->
        main.serve X main.POST_rebuild_vectorstore s
        = (main.HttpError 500
             (lit "Error al reconstruir vectorstore: " ++ str_exn ex), s'))
  /\ (forall r c d s',
        main.serve X r s = (main.HttpError c d, s') ->
        c = 500
        /\ ((exists q ex,
               r = main.POST_query q
               /\ main.query_constitution_body X (main.QueryRequest.mk q) s
                  = (Raise ex, s')
               /\ d = lit "Error al procesar consulta: " ++ str_exn ex)
            \/ (exists ex,
                  r = main.POST_rebuild_vectorstore
                  /\ main.rebuild_vectorstore_body X s = (Raise ex, s')
                  /\ d = lit "Error al reconstruir vectorstore: " ++ str_exn ex))).
Proof.
  assert (Hquery : forall q ex s',
             3 <= len q <= 500 ->
             main.query_constitution_body X (main.QueryRequest.mk q) s
             = (Raise ex, s') ->
             main.serve X (main.POST_query q) s
             = (main.HttpError 500
                  (lit "Error al procesar consulta: " ++ str_exn ex), s')).
  { intros q ex s' Hlen Hbody. cbn [main.serve].
    rewrite (validate_accepts q Hlen). apply respond_raised_500. exact Hbody. }
  assert (Hrebuild : forall ex s',
             main.rebuild_vectorstore_body X s = (Raise ex, s') ->
             main.serve X main.POST_rebuild_vectorstore s
             = (main.HttpError 500
                  (lit "Error al reconstruir vectorstore: " ++ str_exn ex), s')).
  { intros ex s' Hbody. cbn [main.serve]. apply respond_raised_500. exact Hbody. }
  split; [exact Hquery|]. split; [exact Hrebuild|]. split; [|split; [|split]].
  - intros ex s' Hget. split.
    + intros q Hlen. apply Hquery; [exact Hlen|].
      unfold main.query_constitution_body. apply bind_raise. exact Hget.
    + apply Hrebuild. unfold main.rebuild_vectorstore_body.
      apply bind_raise. exact Hget.
  - intros e q ex s' Hinst Hlen Hrun. apply Hquery; [exact Hlen|].
    unfold main.query_constitution_body.
    rewrite (bind_ok _ _ s e s (get_rag_engine_cached X s e Hinst)).
    apply bind_raise. exact Hrun.
  - intros e ex s' Hinst Hrun. apply Hrebuild.
    unfold main.rebuild_vectorstore_body.
    rewrite (bind_ok _ _ s e s (get_rag_engine_cached X s e Hinst)).
    apply bind_raise. exact Hrun.
  - intros r c d s'. destruct r as [|q|]; cbn [main.serve].
    + destruct (health_check_returns X s) as (resp & s1 & Hh).
      unfold main.respond. rewrite Hh. discriminate.
    + unfold main.QueryRequest.validate.
      destruct (len q <? _); [discriminate|].
      destruct (_ <? len q); [discriminate|].
      intros H. apply respond_try_500 in H as (-> & ex & Hbody & ->);
        [|discriminate].
      split; [reflexivity|]. left. eauto.
    + intros H. apply respond_try_500 in H as (-> & ex & Hbody & ->);
        [|discriminate].
      split; [reflexivity|]. right. eauto.
Qed.

Lemma C8_witness :
  main.serve World.loader_fails main.POST_rebuild_vectorstore Scenario.loaded_with_loader_failing
  = (main.HttpError 500 (lit "Error al reconstruir vectorstore: timeout"),
     (rag_engine.rebuild_vectorstore World.loader_fails 0
        Scenario.loaded_with_loader_failing).2).
Proof.
  assert (Hrun : rag_engine.rebuild_vectorstore World.loader_fails 0
                   Scenario.loaded_with_loader_failing
                 = (Raise (LibraryError (lit "timeout")),
                    (rag_engine.rebuild_vectorstore World.loader_fails 0
                       Scenario.loaded_with_loader_failing).2))
    by (vm_compute; reflexivity).
  exact (proj1 (proj2 (proj2 (proj2 (proj2
           (C8_raised_errors_become_500 World.loader_fails
              Scenario.loaded_with_loader_failing)))))
           0%nat _ _ eq_refl Hrun).
Defined.

(** C8 as stated fails: a loader failure and an embedding failure with the
    same exception text get the same detail, so the detail does not tell the
    phase. *)
Lemma C8_counterexample : ~ Stated.detail_states_phase.
Proof.
  intros [phase_of_detail H].
  assert (Hload : phase_of_detail (lit "Error al reconstruir vectorstore: timeout") = Load).
  { eapply (H World.loader_fails (World.boot World.indexed_with_pdf)).
    - vm_compute. reflexivity.
    - vm_compute. reflexivity.
    - reflexivity. }
  assert (Hembed : phase_of_detail (lit "Error al reconstruir vectorstore: timeout") = Embed).
  { eapply (H World.embedding_fails (World.boot World.indexed_with_pdf)).
    - vm_compute. reflexivity.
    - vm_compute. reflexivity.
    - reflexivity. }
  congruence.
Qed.

(** * Further properties of the engine and the routes *)

(** ** Construction when a client fails *)

Lemma RAGEngine_new_llm_fails X s ex :
  ChatGoogleGenerativeAI X (length (trace s)) config.LLM_MODEL
    config.LLM_TEMPERATURE = Raise ex ->
  rag_engine.RAGEngine_new X s =
  (Raise ex,
   mkProcess (fsys s) (heap s ++ [mkRAGEngine None None None None])
     (_rag_instance s) (trace s ++ [EvChatGoogleGenerativeAI])).
Proof.
  intros Hllm.
  unfold rag_engine.RAGEngine_new, rag_engine._initialize.
  unfold bind at 1. unfold alloc at 1.
  unfold bind at 1. unfold bind at 1. unfold call at 1.
  cbn [trace with_heap]. rewrite Hllm. reflexivity.
Qed.

Lemma RAGEngine_new_embeddings_fail X s l ex :
  ChatGoogleGenerativeAI X (length (trace s)) config.LLM_MODEL
    config.LLM_TEMPERATURE = Ok l ->
  GoogleGenerativeAIEmbeddings X (length (trace s) + 1)%nat
    config.EMBEDDING_MODEL = Raise ex ->
  rag_engine.RAGEngine_new X s =
  (Raise ex,
   mkProcess (fsys s) (heap s ++ [mkRAGEngine (Some l) None None None])
     (_rag_instance s)
     (trace s ++ [EvChatGoogleGenerativeAI; EvGoogleGenerativeAIEmbeddings])).
Proof.
  intros Hllm Hemb.
  unfold rag_engine.RAGEngine_new, rag_engine._initialize.
  unfold bind at 1. unfold alloc at 1.
  unfold bind at 1. unfold bind at 1. unfold call at 1.
  cbn [trace with_heap]. rewrite Hllm.
  unfold bind at 1. unfold setattr at 1.
  unfold bind at 1. unfold call at 1.
  cbn [trace with_heap log]. rewrite length_app. cbn [length]. rewrite Hemb.
  cbn [heap with_heap log]. rewrite alter_new.
  unfold with_heap, log. cbn. rewrite <- !app_assoc. reflexivity.
Qed.

(** X3: when one of the two model clients cannot be constructed,
    [get_rag_engine] raises that very exception before the program looks at
    any file: the only calls made are the client constructors, the file
    system is unchanged, and no engine is published. *)
Theorem X3_client_failure_stops_before_files X s ex :
  _rag_instance s = None ->
  ChatGoogleGenerativeAI X (length (trace s)) config.LLM_MODEL
    config.LLM_TEMPERATURE = Raise ex
  \/ (exists l,
        ChatGoogleGenerativeAI X (length (trace s)) config.LLM_MODEL
          config.LLM_TEMPERATURE = Ok l
        /\ GoogleGenerativeAIEmbeddings X (length (trace s) + 1)%nat
             config.EMBEDDING_MODEL = Raise ex) ->
  (rag_engine.get_rag_engine X s).1 = Raise ex
  /\ fsys (rag_engine.get_rag_engine X s).2 = fsys s
  /\ _rag_instance (rag_engine.get_rag_engine X s).2 = None
  /\ new_events s (rag_engine.get_rag_engine X s).2
     `prefix_of` [EvChatGoogleGenerativeAI; EvGoogleGenerativeAIEmbeddings].
Proof.
  intros Hinst Hfail. rewrite (get_rag_engine_fresh X s Hinst). unfold new_events.
  destruct Hfail as [Hllm|(l & Hllm & Hemb)].
  - rewrite (RAGEngine_new_llm_fails X s ex Hllm). cbn.
    rewrite drop_app_length. repeat split; try assumption.
    exists [EvGoogleGenerativeAIEmbeddings]. reflexivity.
  - rewrite (RAGEngine_new_embeddings_fail X s l ex Hllm Hemb). cbn.
    rewrite drop_app_length. repeat split; try assumption. reflexivity.
Qed.

Lemma X3_witness :
  (rag_engine.get_rag_engine World2.llm_fails (World.boot World.indexed_with_pdf)).1
  = Raise (LibraryError (lit "bad model"))
  /\ fsys (rag_engine.get_rag_engine World2.llm_fails
             (World.boot World.indexed_with_pdf)).2
     = World.indexed_with_pdf
  /\ _rag_instance (rag_engine.get_rag_engine World2.llm_fails
                      (World.boot World.indexed_with_pdf)).2 = None
  /\ new_events (World.boot World.indexed_with_pdf)
       (rag_engine.get_rag_engine World2.llm_fails
          (World.boot World.indexed_with_pdf)).2
     `prefix_of` [EvChatGoogleGenerativeAI; EvGoogleGenerativeAIEmbeddings].
Proof.
  exact (X3_client_failure_stops_before_files World2.llm_fails
           (World.boot World.indexed_with_pdf) (LibraryError (lit "bad model"))
           eq_refl (or_introl eq_refl)).
Defined.

(** ** What a successful construction builds *)

Lemma RAGEngine_new_ok X s e s' :
  rag_engine.RAGEngine_new X s = (Ok e, s') ->
  e = length (heap s)
  /\ _rag_instance s' = _rag_instance s
  /\ exists o, heap s' = heap s ++ [o] /\ wired o.
Proof.
  destruct (ChatGoogleGenerativeAI X (length (trace s)) config.LLM_MODEL
              config.LLM_TEMPERATURE) as [l|ex] eqn:Hllm;
    [|rewrite (RAGEngine_new_llm_fails X s ex Hllm); discriminate].
  destruct (GoogleGenerativeAIEmbeddings X (length (trace s) + 1)%nat
              config.EMBEDDING_MODEL) as [em|ex] eqn:Hemb;
    [|rewrite (RAGEngine_new_embeddings_fail X s l ex Hllm Hemb); discriminate].
  rewrite (RAGEngine_new_run X s l em Hllm Hemb). cbv zeta.
  destruct (path_exists (fsys s) CATALOG).
  - rewrite load_vectorstore_run. cbn [heap fsys trace].
    rewrite lookup_new. cbn [mbind option_bind embeddings].
    destruct (Chroma X _ _ (Some em)) as [vs|ex]; [|discriminate].
    rewrite create_rag_chain_run. cbn [heap with_heap log].
    rewrite alter_new, lookup_new.
    cbn [mbind option_bind set_vectorstore vectorstore llm embeddings rag_chain].
    destruct (chain_built X _ vs (Some l)) as [[]|exc]; [|discriminate].
    cbn [heap with_heap log]. rewrite alter_new.
    intros H; inversion H; subst; clear H. cbn.
    split; [reflexivity|]. split; [reflexivity|].
    eexists. split; [reflexivity|]. exists l, em, vs. eexists.
    split; [reflexivity|]. split; reflexivity.
  - match goal with
    | |- context [rag_engine._create_vectorstore X ?self ?s3] =>
        destruct (rag_engine._create_vectorstore X self s3) as [[u|ex] s4] eqn:Hrun
    end; [|discriminate].
    apply create_vectorstore_ok in Hrun
      as (t1 & t2 & t3 & docs & splits & vs & d & _ & _ & _ & _ & ->).
    rewrite create_rag_chain_run. cbn [heap with_heap log].
    rewrite alter_new, lookup_new.
    cbn [mbind option_bind set_vectorstore vectorstore llm embeddings rag_chain].
    destruct (chain_built X _ vs (Some l)) as [[]|exc]; [|discriminate].
    cbn [heap with_heap log]. rewrite alter_new.
    intros H; inversion H; subst; clear H. cbn.
    split; [reflexivity|]. split; [reflexivity|].
    eexists. split; [reflexivity|]. exists l, em, vs. eexists.
    split; [reflexivity|]. split; reflexivity.
Qed.

Lemma get_rag_engine_wired X s :
  instance_wired s -> instance_wired (rag_engine.get_rag_engine X s).2.
Proof.
  intros Hinv. destruct (_rag_instance s) as [e0|] eqn:Hinst.
  - rewrite (get_rag_engine_cached X s e0 Hinst). exact Hinv.
  - rewrite (get_rag_engine_fresh X s Hinst).
    destruct (rag_engine.RAGEngine_new X s) as [[e|ex] s1] eqn:Hnew.
    + apply RAGEngine_new_ok in Hnew as (-> & _ & o & Hheap & Ho).
      intros e He. cbn in He. inversion He; subst. cbn.
      exists o. rewrite Hheap, lookup_new. auto.
    + pose proof (proj1 (RAGEngine_new_frame X s)) as Hg. rewrite Hnew in Hg.
      cbn in *. intros e He. congruence.
Qed.

(** ** A rebuild that succeeds *)

Lemma after_delete_trace s :
  trace (after_delete s) = trace s ++ delete_events s.
Proof.
  unfold after_delete, delete_events.
  destruct (vectorstore_dir (fsys s)); reflexivity.
Qed.

Lemma alter_twice (f g : RAGEngine -> RAGEngine) (h : list RAGEngine) (i : nat) o :
  h !! i = Some o ->
  alter g i (alter f i h) = alter (fun _ => g (f o)) i h.
Proof.
  revert i. induction h as [|o' h IH]; intros [|i] Hi; try discriminate.
  - inversion Hi; subst. reflexivity.
  - cbn. f_equal. apply IH. exact Hi.
Qed.

Lemma rebuild_ok X self s u s' :
  rag_engine.rebuild_vectorstore X self s = (Ok u, s') ->
  exists o t1 t2 t3 docs splits vs d,
    heap s !! self = Some o
    /\ pdf_file (fsys s) = true
    /\ PyPDFLoader_load X t1 = Ok docs
    /\ split_documents X t2 config.CHUNK_SIZE config.CHUNK_OVERLAP docs = Ok splits
    /\ Chroma_from_documents X t3 splits (embeddings o)
         (vectorstore_dir (fsys (after_delete s))) = (Ok vs, d)
    /\ s' = mkProcess (mkFileSystem true d)
              (alter (fun _ => mkRAGEngine (llm o) (embeddings o) (Some vs)
                                 (Some (mkRagChain vs config.RETRIEVER_K (llm o))))
                 self (heap s))
              (_rag_instance s)
              (trace s ++ delete_events s ++ EvExists PDF_PATH true :: ingestion_calls).
Proof.
  rewrite rebuild_run. destruct (after_delete_frame s) as (Hh & Hg & Hpdf & _).
  unfold bind.
  destruct (rag_engine._create_vectorstore X self (after_delete s))
    as [[u1|ex1] s1] eqn:Hrun; [|discriminate].
  apply create_vectorstore_ok in Hrun
    as (t1 & t2 & t3 & docs & splits & vs & d & Hp & Hload & Hsplit & Hfrom & ->).
  rewrite create_rag_chain_run. cbn [heap].
  rewrite !list_lookup_alter_eq. rewrite Hh in *.
  destruct (heap s !! self) as [o|] eqn:Hobj; [|discriminate].
  cbn [fmap option_fmap option_map mbind option_bind set_vectorstore
         vectorstore llm embeddings] in *.
  destruct (chain_built X _ vs (llm o)) as [[]|exc]; [|discriminate].
  intros H; inversion H; subst; clear H.
  exists o, t1, t2, t3, docs, splits, vs, d.
  split; [reflexivity|]. split; [congruence|]. split; [assumption|].
  split; [assumption|]. split; [exact Hfrom|].
  unfold with_heap. cbn [fsys heap _rag_instance trace].
  rewrite Hg, after_delete_trace, <- app_assoc.
  rewrite (alter_twice _ _ _ _ o Hobj). reflexivity.
Qed.

(** X2: a rebuild that returns has emptied the directory before
    [Chroma.from_documents] wrote it, made no other call than the deletion,
    the PDF test and the whole ingestion pipeline, and has replaced on the
    engine both the store and the chain: the chain is over the new store
    and the engine's LLM, and the next [query] goes to it.  The clients and
    every other object are unchanged. *)
Theorem X2_rebuild_rewires_engine X self s u s' :
  rag_engine.rebuild_vectorstore X self s = (Ok u, s') ->
  exists o vs,
    heap s !! self = Some o
    /\ heap s' !! self
       = Some (mkRAGEngine (llm o) (embeddings o) (Some vs)
                 (Some (mkRagChain vs config.RETRIEVER_K (llm o))))
    /\ (forall j, j <> self -> heap s' !! j = heap s !! j)
    /\ _rag_instance s' = _rag_instance s
    /\ new_events s s'
       = delete_events s ++ EvExists PDF_PATH true :: ingestion_calls
    /\ (exists t splits,
          Chroma_from_documents X t splits (embeddings o)
            (match vectorstore_dir (fsys s) with
             | Some _ => Some []
             | None => None
             end)
          = (Ok vs, vectorstore_dir (fsys s')))
    /\ forall q,
         new_events s' (rag_engine.query X self q s').2
         = [EvInvoke (mkRagChain vs config.RETRIEVER_K (llm o)) q].
Proof.
  intros Hrun. apply rebuild_ok in Hrun
    as (o & t1 & t2 & t3 & docs & splits & vs & d & Hobj & _ & _ & _ & Hfrom & ->).
  exists o, vs. cbn [heap _rag_instance fsys trace vectorstore_dir].
  assert (Hnew : alter (fun _ => mkRAGEngine (llm o) (embeddings o) (Some vs)
                                   (Some (mkRagChain vs config.RETRIEVER_K (llm o))))
                   self (heap s) !! self
                 = Some (mkRAGEngine (llm o) (embeddings o) (Some vs)
                           (Some (mkRagChain vs config.RETRIEVER_K (llm o))))).
  { rewrite list_lookup_alter_eq, Hobj. reflexivity. }
  split; [assumption|]. split; [exact Hnew|]. split.
  { intros j Hj. apply list_lookup_alter_ne. congruence. }
  split; [reflexivity|]. split.
  { unfold new_events. cbn [trace]. apply drop_app_length. }
  split.
  { exists t3, splits. rewrite <- Hfrom. f_equal.
    unfold after_delete.
    destruct (vectorstore_dir (fsys s)) eqn:Hdir; cbn; [reflexivity|symmetry; exact Hdir]. }
  intros q. rewrite query_run. cbn [heap]. rewrite Hnew.
  cbn [mbind option_bind rag_chain]. unfold new_events.
  match goal with
  | |- context [invoke X ?t ?c ?fs q] =>
      destruct (invoke X t c fs q) as [response|e];
        [destruct (r_answer response)|]
  end; cbn [snd log trace]; apply drop_app_length.
Qed.

Lemma X2_witness :
  exists o vs,
    heap Scenario.loaded !! 0%nat = Some o
    /\ heap (rag_engine.rebuild_vectorstore World.answering 0 Scenario.loaded).2
         !! 0%nat
       = Some (mkRAGEngine (llm o) (embeddings o) (Some vs)
                 (Some (mkRagChain vs config.RETRIEVER_K (llm o))))
    /\ vs = VectorStoreHandle 1.
Proof.
  assert (Hrun : rag_engine.rebuild_vectorstore World.answering 0 Scenario.loaded
                 = (Ok tt,
                    (rag_engine.rebuild_vectorstore World.answering 0
                       Scenario.loaded).2))
    by (vm_compute; reflexivity).
  destruct (X2_rebuild_rewires_engine World.answering 0 Scenario.loaded tt
              (rag_engine.rebuild_vectorstore World.answering 0 Scenario.loaded).2
              Hrun)
    as (o & vs & Hobj & Hnew & _).
  exists o, vs. split; [exact Hobj|]. split; [exact Hnew|].
  vm_compute in Hnew. inversion Hnew. reflexivity.
Defined.

(** ** The published engine is always wired *)

Lemma query_frame X self q s :
  heap (rag_engine.query X self q s).2 = heap s
  /\ _rag_instance (rag_engine.query X self q s).2 = _rag_instance s
  /\ pdf_file (fsys (rag_engine.query X self q s).2) = pdf_file (fsys s).
Proof.
  rewrite query_state.
  destruct (heap s !! self ≫= rag_chain) as [c|]; auto.
Qed.

Lemma rebuild_wired X e s :
  instance_wired s -> _rag_instance s = Some e ->
  instance_wired (rag_engine.rebuild_vectorstore X e s).2.
Proof.
  intros Hinv Hinst.
  destruct (Hinv e Hinst) as (o & Ho & l & em & v & c & -> & Hk & Hl).
  destruct (rag_engine.rebuild_vectorstore X e s) as [[u|ex] s1] eqn:Hrun.
  - apply rebuild_ok in Hrun
      as (o & t1 & t2 & t3 & docs & splits & vs & d & Hobj & _ & _ & _ & _ & ->).
    intros e' He'. cbn in He'. assert (e' = e) by congruence. subst e'.
    assert (o = mkRAGEngine (Some l) (Some em) (Some v) (Some c)) by congruence.
    subst o. cbn [snd heap]. rewrite list_lookup_alter_eq, Hobj.
    eexists. split; [reflexivity|]. exists l, em, vs. eexists.
    split; [reflexivity|]. split; reflexivity.
  - apply rebuild_raise in Hrun as (Hg & Hheap & _).
    intros e' He'. cbn [snd] in *. assert (e' = e) by congruence. subst e'.
    destruct Hheap as [->|(o & vs & Hobj & ->)].
    + exists (mkRAGEngine (Some l) (Some em) (Some v) (Some c)).
      split; [assumption|]. exists l, em, v, c. auto.
    + rewrite list_lookup_alter_eq, Ho.
      eexists. split; [reflexivity|]. exists l, em, vs, c. auto.
Qed.

Lemma serve_wired X r s : instance_wired s -> instance_wired (main.serve X r s).2.
Proof.
  intros Hinv. rewrite serve_state.
  pose proof (get_rag_engine_wired X s Hinv) as Hget.
  destruct r as [|q|]; [exact Hget| |].
  - destruct (main.QueryRequest.validate q) as [request|]; [|exact Hinv].
    destruct (rag_engine.get_rag_engine X s) as [[e|ex] s1]; [|exact Hget].
    cbn [snd] in Hget.
    destruct (query_frame X e (main.QueryRequest.question request) s1)
      as (Hh & Hg & _).
    intros e' He'. rewrite Hh. apply Hget. congruence.
  - destruct (rag_engine.get_rag_engine X s) as [[e|ex] s1] eqn:Hrun; [|exact Hget].
    cbn [snd] in Hget. apply rebuild_wired; [exact Hget|].
    eapply get_rag_engine_ok. exact Hrun.
Qed.

Lemma serve_all_wired X rs s :
  instance_wired s -> instance_wired (main.serve_all X rs s).
Proof.
  revert s. induction rs as [|r rs IH]; intros s Hinv; [exact Hinv|].
  cbn. apply IH, serve_wired, Hinv.
Qed.

Lemma startup_state X s :
  (main.startup_event X s).2 = (rag_engine.get_rag_engine X s).2.
Proof.
  unfold main.startup_event, try_except, bind, ret.
  destruct (rag_engine.get_rag_engine X s) as [[e|ex] s1]; reflexivity.
Qed.

Lemma started_wired X fs rs :
  instance_wired (main.serve_all X rs (main.startup_event X (World.boot fs)).2).
Proof.
  apply serve_all_wired. rewrite startup_state. apply get_rag_engine_wired.
  intros e He. discriminate.
Qed.

(** X1: in a process that started with [startup_event] and then served any
    sequence of requests, whatever the libraries did (failures while the
    chain is built included), the engine published in [_rag_instance] (if
    one is) can serve: it has both clients, a store, and a chain built with
    [k = 3] over the engine's own LLM.  A half-initialised engine is never
    published, and no failed rebuild takes the chain away. *)
Theorem X1_published_engine_is_wired X fs rs e :
  _rag_instance (main.serve_all X rs (main.startup_event X (World.boot fs)).2)
  = Some e ->
  exists l em v c,
    heap (main.serve_all X rs (main.startup_event X (World.boot fs)).2) !! e
    = Some (mkRAGEngine (Some l) (Some em) (Some v) (Some c))
    /\ chain_k c = 3
    /\ chain_llm c = Some l.
Proof.
  intros He.
  destruct (started_wired X fs rs e He) as (o & Ho & l & em & v & c & -> & Hk & Hl).
  exists l, em, v, c. auto.
Qed.

Lemma X1_witness :
  exists l em v c,
    heap (main.serve_all World.answering
            [main.POST_rebuild_vectorstore; main.POST_query (lit "abc")]
            (main.startup_event World.answering
               (World.boot World.indexed_with_pdf)).2) !! 0%nat
    = Some (mkRAGEngine (Some l) (Some em) (Some v) (Some c))
    /\ chain_k c = 3
    /\ chain_llm c = Some l.
Proof.
  assert (Hinst : _rag_instance
                    (main.serve_all World.answering
                       [main.POST_rebuild_vectorstore; main.POST_query (lit "abc")]
                       (main.startup_event World.answering
                          (World.boot World.indexed_with_pdf)).2) = Some 0%nat)
    by (vm_compute; reflexivity).
  exact (X1_published_engine_is_wired World.answering World.indexed_with_pdf
           [main.POST_rebuild_vectorstore; main.POST_query (lit "abc")] 0%nat
           Hinst).
Defined.

(** X6: in such a process [GET /health] never answers ["healthy"] with
    [vectorstore_ready] false: the flag is true exactly when the status is
    ["healthy"]. *)
Theorem X6_health_ready_iff_healthy X fs rs resp s' :
  main.health_check X
    (main.serve_all X rs (main.startup_event X (World.boot fs)).2) = (Ok resp, s') ->
  (main.HealthResponse.vectorstore_ready resp = true
   <-> main.HealthResponse.status resp = lit "healthy").
Proof.
  pose proof (started_wired X fs rs) as Hinv.
  apply (get_rag_engine_wired X) in Hinv.
  unfold main.health_check, try_except, bind, getattr, ret.
  destruct (rag_engine.get_rag_engine X _) as [[e|ex] s1] eqn:Hrun.
  - apply get_rag_engine_ok in Hrun. cbn [snd] in Hinv.
    destruct (Hinv e Hrun) as (o & Ho & l & em & v & c & -> & _ & _).
    intros H; inversion H; subst; clear H. cbn.
    rewrite Ho. cbn. split; intros _; reflexivity.
  - intros H; inversion H; subst; clear H. cbn. split; discriminate.
Qed.

Lemma X6_witness :
  exists resp s',
    main.health_check World.answering
      (main.serve_all World.answering [main.POST_rebuild_vectorstore]
         (main.startup_event World.answering
            (World.boot World.indexed_without_pdf)).2) = (Ok resp, s')
    /\ (main.HealthResponse.vectorstore_ready resp = true
        <-> main.HealthResponse.status resp = lit "healthy").
Proof.
  exists (main.HealthResponse.mk (lit "healthy")
            (lit "API funcionando correctamente") true),
    (main.health_check World.answering
       (main.serve_all World.answering [main.POST_rebuild_vectorstore]
          (main.startup_event World.answering
             (World.boot World.indexed_without_pdf)).2)).2.
  assert (Hrun : main.health_check World.answering
                   (main.serve_all World.answering [main.POST_rebuild_vectorstore]
                      (main.startup_event World.answering
                         (World.boot World.indexed_without_pdf)).2)
                 = (Ok (main.HealthResponse.mk (lit "healthy")
                          (lit "API funcionando correctamente") true),
                    (main.health_check World.answering
                       (main.serve_all World.answering
                          [main.POST_rebuild_vectorstore]
                          (main.startup_event World.answering
                             (World.boot World.indexed_without_pdf)).2)).2))
    by (vm_compute; reflexivity).
  split; [exact Hrun|].
  exact (X6_health_ready_iff_healthy World.answering World.indexed_without_pdf
           [main.POST_rebuild_vectorstore] _ _ Hrun).
Defined.

(** ** Answers of [POST /query] *)

(** X4: a question of 3 to 500 characters sent to a process whose engine
    is published, when the chain answers, gets 200 with the chain's answer,
    the question echoed unchanged, and one source per retrieved document in
    the same order (none when the chain's result has no ["context"]), each
    with the document's page or ["N/A"] and the preview of its text; the
    request adds one [invoke] call to the process, leaves the vectorstore
    directory as that call left it, and changes nothing else. *)
Theorem X4_answered_query X q s e c response a :
  3 <= len q <= 500 ->
  _rag_instance s = Some e ->
  heap s !! e ≫= rag_chain = Some c ->
  invoke X (length (trace s)) c (fsys s) q = Ok response ->
  r_answer response = Some a ->
  main.serve X (main.POST_query q) s =
  (main.Http200_query
     (main.QueryResponse.mk a
        (map (fun doc =>
                main.Source.mk
                  (dict_get (metadata doc) "page" (PyStr (lit "N/A")))
                  (preview (page_content doc)))
           (default [] (r_context response)))
        q),
   after_invoke X c q s).
Proof.
  intros Hlen Hinst Hc Hinv Ha. cbn [main.serve].
  rewrite (validate_accepts q Hlen).
  unfold main.respond, main.query_constitution, try_except,
    main.query_constitution_body. unfold bind at 1.
  rewrite (get_rag_engine_cached X s e Hinst). unfold bind at 1.
  cbn [main.QueryRequest.question]. rewrite query_run, Hc, Hinv, Ha.
  unfold bind, main.lift, ret. cbn [rag_engine.sources rag_engine.answer
                                     rag_engine.question].
  rewrite comprehension_sources. reflexivity.
Qed.

Lemma X4_witness :
  main.serve World.answering (main.POST_query (lit "abc")) Scenario.loaded =
  (main.Http200_query
     (main.QueryResponse.mk (lit "Articulo 86.")
        [main.Source.mk (PyInt 42) (preview (page_content World.doc_long));
         main.Source.mk (PyStr (lit "N/A")) (lit "Articulo 86")]
        (lit "abc")),
   after_invoke World.answering
     (mkRagChain (VectorStoreHandle 0) 3 (Some (LLMHandle 0))) (lit "abc")
     Scenario.loaded).
Proof.
  refine (X4_answered_query World.answering (lit "abc") Scenario.loaded 0%nat
            (mkRagChain (VectorStoreHandle 0) 3 (Some (LLMHandle 0)))
            (mkResponse (Some [World.doc_long; World.doc_unpaged])
               (Some (lit "Articulo 86.")))
            (lit "Articulo 86.") _ eq_refl eq_refl eq_refl eq_refl).
  split; vm_compute; discriminate.
Defined.

(** X9: when the chain's result has no ["answer"] key, the same request is
    answered 500 with the detail [Error al procesar consulta: 'answer'] (a
    [KeyError] prints its key quoted), after the chain was called. *)
Theorem X9_missing_answer_is_500 X q s e c response :
  3 <= len q <= 500 ->
  _rag_instance s = Some e ->
  heap s !! e ≫= rag_chain = Some c ->
  invoke X (length (trace s)) c (fsys s) q = Ok response ->
  r_answer response = None ->
  main.serve X (main.POST_query q) s =
  (main.HttpError 500 (lit "Error al procesar consulta: 'answer'"),
   after_invoke X c q s).
Proof.
  intros Hlen Hinst Hc Hinv Ha. cbn [main.serve].
  rewrite (validate_accepts q Hlen).
  unfold main.respond, main.query_constitution, try_except,
    main.query_constitution_body. unfold bind at 1.
  rewrite (get_rag_engine_cached X s e Hinst). unfold bind at 1.
  cbn [main.QueryRequest.question]. rewrite query_run, Hc, Hinv, Ha.
  reflexivity.
Qed.

Lemma X9_witness :
  main.serve World2.answerless (main.POST_query (lit "abc")) Scenario.loaded =
  (main.HttpError 500 (lit "Error al procesar consulta: 'answer'"),
   after_invoke World2.answerless
     (mkRagChain (VectorStoreHandle 0) 3 (Some (LLMHandle 0))) (lit "abc")
     Scenario.loaded).
Proof.
  refine (X9_missing_answer_is_500 World2.answerless (lit "abc") Scenario.loaded
            0%nat (mkRagChain (VectorStoreHandle 0) 3 (Some (LLMHandle 0)))
            (mkResponse (Some [World.doc_long]) None)
            _ eq_refl eq_refl eq_refl eq_refl).
  split; vm_compute; discriminate.
Defined.

(** ** The preview *)

Lemma len_app (a b : pystr) : len (a ++ b) = len a + len b.
Proof. unfold len. rewrite length_app. lia. Qed.

Lemma preview_bound text :
  len (preview text) <= 203
  /\ take 200 (preview text) = take 200 text
  /\ (len text < len (preview text) <-> len text = 201 \/ len text = 202).
Proof.
  unfold preview, slice_to.
  destruct (Z.ltb_spec 200 (len text)) as [Hlong|Hshort].
  - assert (Htake : length (take 200 text) = 200%nat).
    { rewrite length_take. unfold len in Hlong. lia. }
    rewrite len_app. unfold len at 1 4. rewrite Htake.
    change (len (lit "...")) with 3. split; [lia|]. split; [|lia].
    rewrite take_app_le by lia. apply take_take.
  - split; [lia|]. split; [reflexivity|lia].
Qed.

(** X5: in a query result, the [content] of the source made from a
    retrieved document has at most 203 characters and agrees with the
    document's text on the first 200.  The preview is not always a
    shortening: it is longer than the text exactly when the text has 201 or
    202 characters. *)
Theorem X5_source_content_bounded X self q s res s' :
  rag_engine.query X self q s = (Ok res, s') ->
  exists c response,
    heap s !! self ≫= rag_chain = Some c
    /\ invoke X (length (trace s)) c (fsys s) q = Ok response
    /\ Forall2
         (fun doc src =>
            exists content,
              src !! "content"%string = Some (PyStr content)
              /\ len content <= 203
              /\ take 200 content = take 200 (page_content doc)
              /\ (len (page_content doc) < len content
                  <-> len (page_content doc) = 201 \/ len (page_content doc) = 202))
         (default [] (r_context response)) (rag_engine.sources res).
Proof.
  rewrite query_run.
  destruct (heap s !! self ≫= rag_chain) as [c|]; [|discriminate].
  destruct (invoke X _ c (fsys s) q) as [response|e] eqn:Hinv; [|discriminate].
  destruct (r_answer response) as [a|]; [|discriminate].
  intros H; inversion H; subst; clear H. cbn.
  exists c, response. split; [reflexivity|]. split; [exact Hinv|].
  apply Forall2_fmap_r, Forall_Forall2_diag, Forall_forall.
  intros doc _. unfold compose. rewrite source_of_content.
  eexists. split; [reflexivity|]. apply preview_bound.
Qed.

Lemma X5_witness :
  exists res s',
    rag_engine.query World.answering 0 (lit "abc") Scenario.loaded = (Ok res, s')
    /\ Forall2
         (fun doc src =>
            exists content,
              src !! "content"%string = Some (PyStr content)
              /\ len content <= 203
              /\ take 200 content = take 200 (page_content doc)
              /\ (len (page_content doc) < len content
                  <-> len (page_content doc) = 201 \/ len (page_content doc) = 202))
         [World.doc_long; World.doc_unpaged] (rag_engine.sources res).
Proof.
  eexists. eexists. split; [reflexivity|].
  destruct (X5_source_content_bounded World.answering 0 (lit "abc")
              Scenario.loaded _ _ eq_refl) as (c & response & _ & Hinv & HF).
  inversion Hinv; subst. exact HF.
Defined.

(** ** The request model as a gate *)

(** X7: the status of an answer is 422 exactly when the request is a
    [POST /query] whose question is shorter than 3 or longer than 500
    characters: questions of 3 to 500 characters always get the handler's
    answer, and no handler ever answers 422, whatever the libraries do.
    The only other statuses are 200 and 500. *)
Theorem X7_status_422_iff_out_of_range X r s :
  (status_code (main.serve X r s).1 = 422
   <-> exists q, r = main.POST_query q /\ (len q < 3 \/ 500 < len q))
  /\ (status_code (main.serve X r s).1 = 200
      \/ status_code (main.serve X r s).1 = 422
      \/ status_code (main.serve X r s).1 = 500).
Proof.
  destruct r as [|q|]; cbn [main.serve].
  - destruct (health_check_returns X s) as (resp & s1 & Hh).
    unfold main.respond. rewrite Hh. cbn. split; [|auto].
    split; [discriminate|]. intros (q & Hq & _). discriminate.
  - destruct (Z.lt_ge_cases (len q) 3) as [Hlo|Hlo];
      [|destruct (Z.lt_ge_cases 500 (len q)) as [Hhi|Hhi]].
    + destruct (validate_rejects q (or_introl Hlo)) as [e ->]. cbn.
      split; [|auto]. split; [eauto|reflexivity].
    + destruct (validate_rejects q (or_intror Hhi)) as [e ->]. cbn.
      split; [|auto]. split; [eauto|reflexivity].
    + rewrite (validate_accepts q (conj Hlo Hhi)).
      unfold main.respond, main.query_constitution, try_except, raise.
      destruct (main.query_constitution_body X _ s) as [[b|ex] s1]; cbn;
        (split; [|auto]);
        (split; [discriminate|]); intros (q' & Hq & Hlen);
        inversion Hq; subst; lia.
  - unfold main.respond, main.rebuild_vectorstore, try_except, raise.
    destruct (main.rebuild_vectorstore_body X s) as [[b|ex] s1]; cbn;
      (split; [|auto]);
      (split; [discriminate|]); intros (q' & Hq & _); discriminate.
Qed.

(** ** Routes that only read the engine *)

(** X8: once an engine is published, [GET /health] leaves the process
    exactly as it is and answers ["healthy"], and [POST /query] changes
    neither the objects nor the PDF nor the global.  All a query can add is
    the one [invoke] call of the published engine's chain, and the
    vectorstore directory changes only as that call leaves it. *)
Theorem X8_health_and_query_only_read X s e :
  _rag_instance s = Some e ->
  (exists ready,
     main.serve X main.GET_health s
     = (main.Http200_health
          (main.HealthResponse.mk (lit "healthy")
             (lit "API funcionando correctamente") ready), s))
  /\ forall q,
       heap (main.serve X (main.POST_query q) s).2 = heap s
       /\ pdf_file (fsys (main.serve X (main.POST_query q) s).2)
          = pdf_file (fsys s)
       /\ _rag_instance (main.serve X (main.POST_query q) s).2 = Some e
       /\ ((main.serve X (main.POST_query q) s).2 = s
           \/ exists c,
                heap s !! e ≫= rag_chain = Some c
                /\ new_events s (main.serve X (main.POST_query q) s).2
                   = [EvInvoke c q]
                /\ vectorstore_dir (fsys (main.serve X (main.POST_query q) s).2)
                   = invoke_directory X (length (trace s)) c (fsys s) q).
Proof.
  intros Hinst. split.
  - cbn [main.serve]. unfold main.respond, main.health_check, try_except.
    unfold bind at 1. rewrite (get_rag_engine_cached X s e Hinst).
    unfold bind, getattr, ret. eexists. reflexivity.
  - intros q. rewrite serve_state.
    destruct (main.QueryRequest.validate q) as [request|] eqn:Hval.
    + assert (main.QueryRequest.question request = q) as ->.
      { revert Hval. unfold main.QueryRequest.validate.
        destruct (len q <? _); [discriminate|].
        destruct (_ <? len q); [discriminate|].
        intros H; inversion H. reflexivity. }
      rewrite (get_rag_engine_cached X s e Hinst).
      destruct (query_frame X e q s) as (Hh & Hg & Hf).
      split; [assumption|]. split; [assumption|]. split; [congruence|].
      rewrite query_state.
      destruct (heap s !! e ≫= rag_chain) as [c|].
      * right. exists c. split; [reflexivity|].
        split; [apply after_invoke_events|reflexivity].
      * left. reflexivity.
    + split; [reflexivity|]. split; [reflexivity|]. split; [assumption|].
      left. reflexivity.
Qed.

Lemma X8_witness :
  (exists ready,
     main.serve World.answering main.GET_health Scenario.loaded
     = (main.Http200_health
          (main.HealthResponse.mk (lit "healthy")
             (lit "API funcionando correctamente") ready), Scenario.loaded))
  /\ heap (main.serve World.answering (main.POST_query (lit "abc")) Scenario.loaded).2
     = heap Scenario.loaded.
Proof.
  destruct (X8_health_and_query_only_read World.answering Scenario.loaded 0%nat
              eq_refl) as [Hhealth Hquery].
  split; [exact Hhealth|]. exact (proj1 (Hquery (lit "abc"))).
Defined.

(** ** A rebuild without the PDF *)

Lemma construction_needs_index_or_pdf X s :
  path_exists (fsys s) CATALOG = false ->
  pdf_file (fsys s) = false ->
  forall e s', rag_engine.RAGEngine_new X s <> (Ok e, s').
Proof.
  intros Hcat Hpdf e s'.
  destruct (ChatGoogleGenerativeAI X (length (trace s)) config.LLM_MODEL
              config.LLM_TEMPERATURE) as [l|ex] eqn:Hllm;
    [|rewrite (RAGEngine_new_llm_fails X s ex Hllm); discriminate].
  destruct (GoogleGenerativeAIEmbeddings X (length (trace s) + 1)%nat
              config.EMBEDDING_MODEL) as [em|ex] eqn:Hemb;
    [|rewrite (RAGEngine_new_embeddings_fail X s l ex Hllm Hemb); discriminate].
  rewrite (RAGEngine_new_run X s l em Hllm Hemb). cbv zeta. rewrite Hcat.
  unfold rag_engine._create_vectorstore, bind, exists_. cbn [path_exists fsys].
  rewrite Hpdf. discriminate.
Qed.

(** X10: a rebuild asked for while the PDF is missing destroys the index
    for good.  The directory that existed is removed and made again before
    the PDF is tested, so the call raises [FileNotFoundError] with the
    directory empty; and a process started afresh on those files can no
    longer construct an engine, whatever the libraries answer. *)
Theorem X10_rebuild_without_pdf_loses_index X self s names :
  vectorstore_dir (fsys s) = Some names ->
  pdf_file (fsys s) = false ->
  rag_engine.rebuild_vectorstore X self s =
  (Raise (FileNotFoundError (rag_engine.pdf_not_found_msg X)),
   mkProcess (mkFileSystem false (Some [])) (heap s) (_rag_instance s)
     (trace s ++ [EvExists VECTORSTORE_DIR true; EvRmtree; EvMkdir;
                  EvExists PDF_PATH false]))
  /\ forall Y e s',
       rag_engine.get_rag_engine Y (World.boot (mkFileSystem false (Some [])))
       <> (Ok e, s').
Proof.
  intros Hdir Hpdf. split.
  - rewrite rebuild_run. unfold after_delete. rewrite Hdir, Hpdf.
    unfold bind, rag_engine._create_vectorstore, bind, exists_.
    cbn [path_exists fsys pdf_file negb]. unfold raise, log. cbn.
    rewrite <- app_assoc. reflexivity.
  - intros Y e s'. rewrite get_rag_engine_fresh by reflexivity.
    destruct (rag_engine.RAGEngine_new Y _) as [[e1|ex] s1] eqn:Hnew;
      [|discriminate].
    exfalso. revert Hnew. apply construction_needs_index_or_pdf; reflexivity.
Qed.

Lemma X10_witness :
  rag_engine.rebuild_vectorstore World.answering 0 Scenario.loaded_without_pdf =
  (Raise (FileNotFoundError (rag_engine.pdf_not_found_msg World.answering)),
   mkProcess (mkFileSystem false (Some [])) (heap Scenario.loaded_without_pdf)
     (_rag_instance Scenario.loaded_without_pdf)
     (trace Scenario.loaded_without_pdf
      ++ [EvExists VECTORSTORE_DIR true; EvRmtree; EvMkdir;
          EvExists PDF_PATH false]))
  /\ forall Y e s',
       rag_engine.get_rag_engine Y (World.boot (mkFileSystem false (Some [])))
       <> (Ok e, s').
Proof.
  exact (X10_rebuild_without_pdf_loses_index World.answering 0
           Scenario.loaded_without_pdf ["chroma.sqlite3"%string] eq_refl eq_refl).
Defined.

(** ** Importing [config] *)

(** X11: importing [config] never touches the index or the PDF: afterwards
    both directories exist, a [vectorstore] directory that was there keeps
    its entries, so the catalog is present exactly if it was before.  This
    holds also when the import raises: it raises [ValueError] exactly when
    the key is unset or empty, after the directories were made, and
    otherwise binds the key it read. *)
Theorem X11_import_config_keeps_index getenv d :
  config_import.data_dir (config_import.import_config getenv d).2 = true
  /\ path_exists (config_import.files (config_import.import_config getenv d).2)
       VECTORSTORE_DIR = true
  /\ path_exists (config_import.files (config_import.import_config getenv d).2)
       CATALOG
     = path_exists (config_import.files d) CATALOG
  /\ pdf_file (config_import.files (config_import.import_config getenv d).2)
     = pdf_file (config_import.files d)
  /\ (forall names,
        vectorstore_dir (config_import.files d) = Some names ->
        vectorstore_dir (config_import.files (config_import.import_config getenv d).2)
        = Some names)
  /\ ((config_import.import_config getenv d).1
      = config_import.ValueError config_import.missing_key_msg
      <-> (getenv = None \/ getenv = Some []))
  /\ (forall key,
        (config_import.import_config getenv d).1 = config_import.Imported key
        <-> (getenv = Some key /\ key <> [])).
Proof.
  assert (Hstate : (config_import.import_config getenv d).2
                   = config_import.mkDisk true
                       (config_import.mkdir_exist_ok (config_import.files d))).
  { unfold config_import.import_config. destruct getenv as [[|]|]; reflexivity. }
  rewrite Hstate. cbn [config_import.data_dir config_import.files].
  unfold config_import.mkdir_exist_ok.
  split; [reflexivity|]. split.
  { destruct (vectorstore_dir (config_import.files d)) eqn:Hdir; cbn;
      [rewrite Hdir|]; reflexivity. }
  split.
  { destruct (vectorstore_dir (config_import.files d)) eqn:Hdir; cbn;
      rewrite ?Hdir; reflexivity. }
  split.
  { destruct (vectorstore_dir (config_import.files d)); reflexivity. }
  split.
  { intros names Hdir. rewrite Hdir. exact Hdir. }
  unfold config_import.import_config. split.
  - destruct getenv as [[|ch key]|]; cbn; split; auto; try discriminate.
    intros [H|H]; discriminate.
  - intros key. destruct getenv as [[|ch key']|]; cbn; split;
      try discriminate; try (intros [H1 H2]; congruence).
    intros H; inversion H. split; [reflexivity|discriminate].
Qed.

(** ** Health of a process that cannot construct *)

(** X12: while neither the index nor the PDF is there (and the clients
    construct), [GET /health] is not a passive probe: it runs the whole
    construction again, answers ["unhealthy"] with ["Error: "] followed by
    the [FileNotFoundError] text, and leaves behind one more unpublished
    half-initialised engine and four more calls. *)
Theorem X12_unhealthy_probe_reconstructs X s l em :
  _rag_instance s = None ->
  path_exists (fsys s) CATALOG = false ->
  pdf_file (fsys s) = false ->
  ChatGoogleGenerativeAI X (length (trace s)) config.LLM_MODEL
    config.LLM_TEMPERATURE = Ok l ->
  GoogleGenerativeAIEmbeddings X (length (trace s) + 1)%nat
    config.EMBEDDING_MODEL = Ok em ->
  main.serve X main.GET_health s =
  (main.Http200_health
     (main.HealthResponse.mk (lit "unhealthy")
        (lit "Error: " ++ rag_engine.pdf_not_found_msg X) false),
   mkProcess (fsys s) (heap s ++ [mkRAGEngine (Some l) (Some em) None None])
     None
     (trace s ++ [EvChatGoogleGenerativeAI; EvGoogleGenerativeAIEmbeddings;
                  EvExists CATALOG false; EvExists PDF_PATH false])).
Proof.
  intros Hinst Hcat Hpdf Hllm Hemb. cbn [main.serve].
  unfold main.respond, main.health_check, try_except. unfold bind at 1.
  rewrite (get_rag_engine_fresh X s Hinst).
  rewrite (RAGEngine_new_run X s l em Hllm Hemb). cbv zeta. rewrite Hcat.
  unfold rag_engine._create_vectorstore, bind, exists_.
  cbn [path_exists fsys pdf_file]. rewrite Hpdf. cbn [negb].
  unfold raise, ret, log. cbn [fsys heap _rag_instance trace str_exn].
  rewrite <- app_assoc, Hinst. reflexivity.
Qed.

Lemma X12_witness :
  main.serve World.answering main.GET_health (World.boot World.nothing) =
  (main.Http200_health
     (main.HealthResponse.mk (lit "unhealthy")
        (lit "Error: " ++ rag_engine.pdf_not_found_msg World.answering) false),
   mkProcess World.nothing
     [mkRAGEngine (Some (LLMHandle 0)) (Some (EmbeddingsHandle 0)) None None]
     None
     [EvChatGoogleGenerativeAI; EvGoogleGenerativeAIEmbeddings;
      EvExists CATALOG false; EvExists PDF_PATH false]).
Proof.
  exact (X12_unhealthy_probe_reconstructs World.answering (World.boot World.nothing)
           (LLMHandle 0) (EmbeddingsHandle 0) eq_refl eq_refl eq_refl eq_refl
           eq_refl).
Defined.
